(** * aggregate_data.py: housing density, high-density areas and growth-ready hot zones

    A shallow embedding of the analysis script [aggregate_data.py].  The
    script is a straight-line pipeline over two tables (the SA2 boundary
    shapefile and the census CSV); every numbered step of the script has
    a definition of the same name below.

    - Floating-point columns are IEEE-754 binary64 values, modelled with
      the executable specification [SpecFloat] (no rounding is abstracted
      away: [F64.div] is the correctly rounded quotient).
    - Python strings are sequences of Unicode code points.
    - Calls that can raise in Python return a [result].
    - Geometry (shapely/pyproj) and text/number conversion (CPython,
      pandas' parser) are library code: they are interfaces here, with a
      small executable instance used for the worked examples. *)

From Stdlib Require Import ZArith List Bool Lia String Ascii Permutation Sorted.
From Stdlib Require Import DecimalString DecimalPos DecimalZ.
From Stdlib Require Import Floats.SpecFloat.
Import ListNotations.

Set Implicit Arguments.
Open Scope Z_scope.

(** ** binary64 *)

Module F64.

Definition prec : Z := 53.
Definition emax : Z := 1024.

Definition float := spec_float.

Definition nan : float := S754_nan.
Definition inf : float := S754_infinity false.
Definition neg_inf : float := S754_infinity true.
Definition zero : float := S754_zero false.

(** int -> float64 conversion (round to nearest, ties to even). *)
Definition of_Z (z : Z) : float := binary_normalize prec emax z 0 false.

Definition add : float -> float -> float := SFadd prec emax.
Definition sub : float -> float -> float := SFsub prec emax.
Definition mul : float -> float -> float := SFmul prec emax.
Definition div : float -> float -> float := SFdiv prec emax.

(** Python's [a <= b], [a >= b], [a < b] on floats: false as soon as
    one side is NaN. *)
Definition le (a b : float) : bool := SFleb a b.
Definition ge (a b : float) : bool := SFleb b a.
Definition lt (a b : float) : bool := SFltb a b.

Definition isna (x : float) : bool :=
  match x with S754_nan => true | _ => false end.

Definition valid (x : float) : bool := valid_binary prec emax x.

(** [np.floor] followed by [astype(np.intp)], for the finite values the
    index computation produces. *)
Definition floor (x : float) : Z :=
  match x with
  | S754_finite s m e =>
      let v := if s then Zneg m else Zpos m in
      match e with
      | Zneg p => Z.shiftr v (Zpos p)
      | _ => Z.shiftl v e
      end
  | _ => 0
  end.

(** The literal [0.70]: the double nearest to 7/10. *)
Definition lit_0_70 : float := S754_finite false 6305039478318694 (-53).

End F64.

(** ** Exceptions *)

Inductive exn : Type :=
| ValueError (msg : string).

Inductive result (A : Type) : Type :=
| Ok (a : A)
| Raised (e : exn).

Arguments Ok {A} a.
Arguments Raised {A} e.

Definition bind {A B : Type} (m : result A) (k : A -> result B) : result B :=
  match m with
  | Ok a => k a
  | Raised e => Raised e
  end.

Notation "x <- m ;; k" := (bind m (fun x => k))
  (at level 61, m at next level, right associativity).

Fixpoint mapM {A B : Type} (f : A -> result B) (l : list A) : result (list B) :=
  match l with
  | [] => Ok []
  | a :: l' => b <- f a ;; bs <- mapM f l' ;; Ok (b :: bs)
  end.

(** ** Python strings *)

(** A Python [str] is a sequence of Unicode code points. *)
Definition str : Type := list N.

(** The [str] spelled by a literal of this file, one code point per
    character (the literals below are ASCII). *)
Definition str_lit (s : string) : str :=
  map N_of_ascii (list_ascii_of_string s).

(** [a == b] on strings. *)
Fixpoint str_eqb (a b : str) : bool :=
  match a, b with
  | [], [] => true
  | x :: a', y :: b' => N.eqb x y && str_eqb a' b'
  | _, _ => false
  end.

(** The ASCII text of a string, when all its code points are ASCII. *)
Fixpoint str_ascii (s : str) : option string :=
  match s with
  | [] => Some EmptyString
  | c :: s' =>
      if (c <? 128)%N
      then option_map (String (ascii_of_N c)) (str_ascii s')
      else None
  end.

(** The integer a string of ASCII decimal digits, with an optional
    leading minus sign, denotes. *)
Definition int_of_str (s : str) : option Z :=
  match str_ascii s with
  | Some a => option_map Z.of_int (NilZero.int_of_string a)
  | None => None
  end.

(** ** Cells of a freshly read table *)

(** What [read_file] / [read_csv] leave in a column: an integer, a float
    (a missing entry is the float NaN) or a string. *)
Inductive cell : Type :=
| CInt (z : Z)
| CFloat (f : F64.float)
| CStr (s : str).

(** ** Library interfaces *)

(** Text conversions that belong to CPython and to pandas' parser. *)
Class Text : Type := {
  (** [str(x)] of a float, as [astype(str)] applies it. *)
  float_repr : F64.float -> str;
  (** the number a string denotes for [pd.to_numeric], if it denotes one. *)
  str_to_float : str -> option F64.float
}.

(** The shapely / pyproj operations the script calls. *)
Class Geometry (G : Type) : Type := {
  (** [transform src dst g]: [g] re-expressed from EPSG:[src] in EPSG:[dst]. *)
  transform : Z -> Z -> G -> G;
  (** [g.buffer(distance)] *)
  buffer : G -> Z -> G;
  (** union of a list of geometries (empty geometry for the empty list) *)
  unary_union : list G -> G;
  (** [a.intersects(b)]: the two share at least one point. *)
  intersects : G -> G -> bool
}.

(** ** String normalisation: [astype(str).str.strip()] *)

(** The code points for which [str.isspace] holds: the ASCII controls
    and the space, NEL, the no-break space, the Ogham space mark, the
    spaces U+2000 to U+200A, the line and paragraph separators, the
    narrow no-break space, the medium mathematical space and the
    ideographic space. *)
Definition is_space (c : N) : bool :=
  (((9 <=? c) && (c <=? 13)) || ((28 <=? c) && (c <=? 32))
   || (c =? 133) || (c =? 160) || (c =? 5760)
   || ((8192 <=? c) && (c <=? 8202))
   || (c =? 8232) || (c =? 8233) || (c =? 8239) || (c =? 8287)
   || (c =? 12288))%N.

Fixpoint lstrip (s : str) : str :=
  match s with
  | [] => []
  | c :: s' => if is_space c then lstrip s' else s
  end.

Fixpoint rstrip (s : str) : str :=
  match s with
  | [] => []
  | c :: s' =>
      match rstrip s' with
      | [] => if is_space c then [] else [c]
      | t => c :: t
      end
  end.

Definition strip (s : str) : str := lstrip (rstrip s).

(** [str(z)] of an integer: its decimal writing. *)
Definition str_of_int (z : Z) : str :=
  str_lit (NilZero.string_of_int (Z.to_int z)).

Definition astype_str `{Text} (c : cell) : str :=
  match c with
  | CInt z => str_of_int z
  | CFloat f => float_repr f
  | CStr s => s
  end.

(** [format(x, '.1f')]: one digit after the point, the exact binary
    value rounded to the nearest tenth, ties to the even tenth. *)
Definition format_1f (x : F64.float) : str :=
  match x with
  | S754_nan => str_lit "nan"
  | S754_infinity s => str_lit (if s then "-inf" else "inf")
  | S754_zero s => str_lit (if s then "-0.0" else "0.0")
  | S754_finite s m e =>
      let tenths :=
        match e with
        | Zneg p =>
            let num := Zpos m * 10 in
            let den := 2 ^ Zpos p in
            let q := num / den in
            let r := num mod den in
            if 2 * r <? den then q
            else if den <? 2 * r then q + 1
            else if Z.even q then q else q + 1
        | _ => Zpos m * 10 * 2 ^ e
        end in
      (if s then str_lit "-" else [])
        ++ str_of_int (tenths / 10) ++ str_lit "." ++ str_of_int (tenths mod 10)
  end.

(** ** Tables *)

(** A row of the SA2 boundary table.  [K] is the type of the key column:
    a raw [cell] when read, a [str] after line 16. *)
Record boundary (G K : Type) : Type := {
  SA2_CODE21 : K;
  AREASQKM21 : F64.float;
  geometry : option G
}.

(** A row of the census table.  [K] as above; [V] is the type of the
    count column: a raw [cell] when read, a float after line 20. *)
Record census (K V : Type) : Type := {
  SA2_CODE_2021 : K;
  Total_Total : V
}.

(** A row of [gdf] from line 32 on: the boundary columns, the two census
    columns the merge brings in, and the density column. *)
Record region (G : Type) : Type := {
  shp : boundary G str;
  cen : census str F64.float;
  housing_density : F64.float
}.

(** A GeoDataFrame: rows and the CRS they are expressed in (an EPSG code,
    [None] for a frame without CRS). *)
Record GeoDataFrame (R : Type) : Type := {
  crs : option Z;
  rows : list R
}.

Definition code {G} (r : region G) : str := SA2_CODE21 (shp r).
Definition area {G} (r : region G) : F64.float := AREASQKM21 (shp r).
Definition count {G} (r : region G) : F64.float := Total_Total (cen r).
Definition geom {G} (r : region G) : option G := geometry (shp r).

Definition with_geometry {G} (f : option G -> option G) (r : region G) : region G :=
  {| shp := {| SA2_CODE21 := SA2_CODE21 (shp r);
               AREASQKM21 := AREASQKM21 (shp r);
               geometry := f (geometry (shp r)) |};
     cen := cen r;
     housing_density := housing_density r |}.

(** Boolean-mask row selection [df[mask]]. *)
Definition select {R} (mask : R -> bool) (d : GeoDataFrame R) : GeoDataFrame R :=
  {| crs := crs d; rows := filter mask (rows d) |}.

(** ** [pd.to_numeric] and [dropna] *)

Inductive errors_mode : Type := errors_raise | errors_coerce.

Definition to_numeric_cell `{Text} (errors : errors_mode) (c : cell) : result F64.float :=
  match c with
  | CInt z => Ok (F64.of_Z z)
  | CFloat f => Ok f
  | CStr s =>
      match str_to_float s with
      | Some f => Ok f
      | None =>
          match errors with
          | errors_raise => Raised (ValueError "Unable to parse string")
          | errors_coerce => Ok F64.nan
          end
      end
  end.

Definition to_numeric `{Text} (errors : errors_mode) (col : list cell)
  : result (list F64.float) :=
  mapM (to_numeric_cell errors) col.

(** [housing.dropna(subset=['Total_Total'])] *)
Definition dropna {K} (t : list (census K F64.float)) : list (census K F64.float) :=
  filter (fun h => negb (F64.isna (Total_Total h))) t.

(** ** [merge(..., how='inner')] *)

(** Inner join on equal keys: left order is kept, and a left row is
    paired with every right row of the same key, in right order. *)
Definition merge {G} (left : list (boundary G str))
    (right : list (census str F64.float))
  : list (boundary G str * census str F64.float) :=
  flat_map
    (fun l => map (fun r => (l, r))
                (filter (fun r => str_eqb (SA2_CODE21 l) (SA2_CODE_2021 r)) right))
    left.

(** ** [Series.quantile] *)

Module Quantile.

(** Insertion of [x] into an ascending list. *)
Fixpoint insert (x : F64.float) (l : list F64.float) : list F64.float :=
  match l with
  | [] => [x]
  | y :: l' => if F64.le x y then x :: l else y :: insert x l'
  end.

(** Ascending sort of NaN-free values. *)
Definition sort (l : list F64.float) : list F64.float :=
  fold_right insert [] l.

(** [arr[i]] with Python's negative indices; the indices built below
    are always in range. *)
Definition item (arr : list F64.float) (i : Z) : F64.float :=
  let j := if i <? 0 then Z.of_nat (List.length arr) + i else i in
  nth (Z.to_nat j) arr F64.nan.

(** The literal [0.5]. *)
Definition half : F64.float := F64.div (F64.of_Z 1) (F64.of_Z 2).

(** Modelled from the spec: linear interpolation between [a] and [b] at
    [t], computed from the end nearer to [t]. *)
Definition lerp (a b t : F64.float) : F64.float :=
  let diff_b_a := F64.sub b a in
  if F64.ge t half
  then F64.sub b (F64.mul diff_b_a (F64.sub (F64.of_Z 1) t))
  else F64.add a (F64.mul diff_b_a t).

(** Modelled from the spec: the percentile [p] (out of 100) of NaN-free
    [values] by linear interpolation, as [np.percentile] computes it. *)
Definition percentile (values : list F64.float) (p : F64.float) : F64.float :=
  let q := F64.div p (F64.of_Z 100) in
  let arr := sort values in
  let n := Z.of_nat (List.length arr) in
  let virtual_index := F64.mul (F64.of_Z (n - 1)) q in
  let previous_index :=
    if F64.isna virtual_index then -1
    else if F64.lt virtual_index F64.zero then 0
    else if F64.ge virtual_index (F64.of_Z (n - 1)) then -1
    else F64.floor virtual_index in
  let next_index :=
    if F64.isna virtual_index then -1
    else if F64.lt virtual_index F64.zero then 0
    else if F64.ge virtual_index (F64.of_Z (n - 1)) then -1
    else F64.floor virtual_index + 1 in
  let gamma := F64.sub virtual_index (F64.of_Z previous_index) in
  lerp (item arr previous_index) (item arr next_index) gamma.

(** Modelled from the spec: [Series.quantile] is pandas/numpy library
    code, not part of the repository.  The spec prescribes "standard
    linear-interpolation quantile semantics over the full (filtered)
    density column": missing values are skipped, the remaining values
    are sorted, and the value at fractional position [(n - 1) * q] is
    interpolated linearly between its two neighbours, in binary64. *)
Definition quantile (col : list F64.float) (q : F64.float) : F64.float :=
  match filter (fun x => negb (F64.isna x)) col with
  | [] => F64.nan
  | values => percentile values (F64.mul q (F64.of_Z 100))
  end.

End Quantile.

(** ** The script *)

Section Script.

Context {G : Type} `{Geometry G} `{Text}.

Definition Regions : Type := GeoDataFrame (region G).

(** Lines 16 and 17: [astype(str).str.strip()] on the key columns. *)
Definition strip_SA2_CODE21 (gdf : GeoDataFrame (boundary G cell))
  : GeoDataFrame (boundary G str) :=
  {| crs := crs gdf;
     rows := map (fun b => {| SA2_CODE21 := strip (astype_str (SA2_CODE21 b));
                              AREASQKM21 := AREASQKM21 b;
                              geometry := geometry b |}) (rows gdf) |}.

Definition strip_SA2_CODE_2021 {V} (housing : list (census cell V))
  : list (census str V) :=
  map (fun h => {| SA2_CODE_2021 := strip (astype_str (SA2_CODE_2021 h));
                   Total_Total := Total_Total h |}) housing.

(** Line 20: the column assignment [housing['Total_Total'] = ...]. *)
Definition assign_Total_Total {K V W} (housing : list (census K V)) (col : list W)
  : list (census K W) :=
  map (fun hv => {| SA2_CODE_2021 := SA2_CODE_2021 (fst hv);
                    Total_Total := snd hv |}) (combine housing col).

(** Lines 20 and 21. *)
Definition housing_numeric (housing : list (census str cell))
  : result (list (census str F64.float)) :=
  col <- to_numeric errors_coerce (map (@Total_Total _ _) housing) ;;
  Ok (dropna (assign_Total_Total housing col)).

(** Lines 24 to 29. *)
Definition gdf_merge (gdf : GeoDataFrame (boundary G str))
    (housing : list (census str F64.float))
  : GeoDataFrame (boundary G str * census str F64.float) :=
  {| crs := crs gdf; rows := merge (rows gdf) housing |}.

(** Line 32. *)
Definition assign_housing_density
    (gdf : GeoDataFrame (boundary G str * census str F64.float)) : Regions :=
  {| crs := crs gdf;
     rows := map (fun bc => {| shp := fst bc;
                               cen := snd bc;
                               housing_density :=
                                 F64.div (Total_Total (snd bc)) (AREASQKM21 (fst bc)) |})
                 (rows gdf) |}.

(** Line 36. *)
Definition high_density_threshold (gdf : Regions) : F64.float :=
  Quantile.quantile (map (@housing_density G) (rows gdf)) F64.lit_0_70.

(** Line 37. *)
Definition developed (gdf : Regions) : Regions :=
  select (fun r => F64.ge (housing_density r) (high_density_threshold gdf)) gdf.

(** The frame [d], whose geometries are in EPSG:[src], re-expressed in
    EPSG:[dst]; a missing geometry stays missing. *)
Definition reproject (src dst : Z) (d : Regions) : Regions :=
  {| crs := Some dst;
     rows := map (with_geometry (option_map (transform src dst))) (rows d) |}.

(** [GeoDataFrame.to_crs(epsg=...)]: refuses a frame without CRS. *)
Definition to_crs (epsg : Z) (d : Regions) : result Regions :=
  match crs d with
  | None =>
      Raised (ValueError
        "Cannot transform naive geometries.  Please set a crs on the object first.")
  | Some src => Ok (reproject src epsg d)
  end.

(** Line 46. *)
Definition buffer_distance : Z := 10000.

(** Lines 47 and 48. *)
Definition buffered (developed_m : Regions) : Regions :=
  {| crs := crs developed_m;
     rows := map (with_geometry (option_map (fun g => buffer g buffer_distance)))
                 (rows developed_m) |}.

(** The geometries of a frame that are present, in row order. *)
Definition geometries (d : Regions) : list G :=
  flat_map (fun r => match geom r with Some g => [g] | None => [] end) (rows d).

(** [frame.unary_union]: the union of the geometries that are present. *)
Definition frame_unary_union (d : Regions) : G :=
  unary_union (geometries d).

(** [GeoSeries.intersects(other)], row by row: false on a missing geometry. *)
Definition geom_intersects (other : G) (r : region G) : bool :=
  match geom r with
  | Some g => intersects g other
  | None => false
  end.

(** [Series.isin] *)
Definition isin (s : str) (values : list str) : bool :=
  existsb (str_eqb s) values.

(** Line 51. *)
Definition hot_zones_intersecting (gdf_m buffered : Regions) : Regions :=
  select (geom_intersects (frame_unary_union buffered)) gdf_m.

(** Line 52. *)
Definition hot_zones_not_developed (hot_zones_m developed : Regions) : Regions :=
  select (fun r => negb (isin (code r) (map (@code G) (rows developed)))) hot_zones_m.

(** Lines 55 and 56. *)
Definition min_density : Z := 10.
Definition max_density : Z := 200.

(** Lines 57 to 60. *)
Definition hot_zones_in_band (hot_zones_m : Regions) : Regions :=
  select (fun r => F64.ge (housing_density r) (F64.of_Z min_density)
                   && F64.le (housing_density r) (F64.of_Z max_density))
         hot_zones_m.

(** Lines 51 to 60 together. *)
Definition hot_zones_m (gdf_m buffered developed : Regions) : Regions :=
  hot_zones_in_band
    (hot_zones_not_developed (hot_zones_intersecting gdf_m buffered) developed).

(** Lines 85 to 87: [df[~df['geometry'].isna()]]. *)
Definition drop_missing_geometry (d : Regions) : Regions :=
  select (fun r => match geom r with Some _ => true | None => false end) d.

(** Every frame the script binds, in the order it binds them. *)
Record frames : Type := {
  f_gdf : Regions;
  f_high_density_threshold : F64.float;
  f_developed : Regions;
  f_gdf_m : Regions;
  f_developed_m : Regions;
  f_buffered : Regions;
  f_hot_zones_m : Regions;
  f_gdf_f : Regions;
  f_developed_f : Regions;
  f_hot_zones_f : Regions
}.

(** Lines 16 to 32: the joined table with its density column. *)
Definition load_and_join (shapefile : GeoDataFrame (boundary G cell))
    (csv : list (census cell cell)) : result Regions :=
  let gdf := strip_SA2_CODE21 shapefile in
  let housing := strip_SA2_CODE_2021 csv in
  housing <- housing_numeric housing ;;
  Ok (assign_housing_density (gdf_merge gdf housing)).

(** Lines 36 to 87, from the joined table. *)
Definition classify (gdf : Regions) : result frames :=
  let developed := developed gdf in
  gdf_m <- to_crs 3857 gdf ;;
  developed_m <- to_crs 3857 developed ;;
  let buffered := buffered developed_m in
  let hot_zones_m := hot_zones_m gdf_m buffered developed in
  gdf_f <- to_crs 4326 gdf_m ;;
  developed_f <- to_crs 4326 developed_m ;;
  hot_zones_f <- to_crs 4326 hot_zones_m ;;
  Ok {| f_gdf := gdf;
        f_high_density_threshold := high_density_threshold gdf;
        f_developed := developed;
        f_gdf_m := gdf_m;
        f_developed_m := developed_m;
        f_buffered := buffered;
        f_hot_zones_m := hot_zones_m;
        f_gdf_f := drop_missing_geometry gdf_f;
        f_developed_f := drop_missing_geometry developed_f;
        f_hot_zones_f := drop_missing_geometry hot_zones_f |}.

(** The whole script, up to the point where the maps are drawn. *)
Definition aggregate_data (shapefile : GeoDataFrame (boundary G cell))
    (csv : list (census cell cell)) : result frames :=
  gdf <- load_and_join shapefile csv ;;
  classify gdf.

(** Lines 66 to 72: a call of [GeoDataFrame.plot]. *)
Record plot_call : Type := {
  plotted : Regions;
  color : string;
  edgecolor : string;
  alpha : F64.float
}.

(** Lines 66 to 72: the three frames of the static map, in the order
    they are plotted. *)
Definition static_map (f : frames) : list plot_call :=
  [ {| plotted := f_gdf_m f; color := "lightgrey"; edgecolor := "black";
       alpha := F64.lit_0_70 |};
    {| plotted := f_developed_m f; color := "purple"; edgecolor := "black";
       alpha := F64.lit_0_70 |};
    {| plotted := f_hot_zones_m f; color := "red"; edgecolor := "black";
       alpha := F64.div (F64.of_Z 6) (F64.of_Z 10) |} ].

(** What a [style_function] of lines 96, 103 and 111 returns. *)
Record style : Type := {
  style_fillColor : option string;
  style_color : string;
  style_fillOpacity : F64.float
}.

(** A [folium.GeoJson] added to the map. *)
Record geojson : Type := {
  gj_geometry : G;
  gj_style : style;
  gj_tooltip : option str
}.

(** Lines 104 and 112: the f-string of the tooltip. *)
Definition tooltip (r : region G) : str :=
  code r ++ str_lit ": " ++ format_1f (housing_density r)
    ++ str_lit " dwellings/km" ++ [178%N].

(** One loop of lines 93 to 113 over a frame; lines 85 to 87 have
    removed the rows without geometry. *)
Definition add_layer (st : style) (tip : region G -> option str) (d : Regions)
  : list geojson :=
  flat_map (fun r => match geom r with
                     | Some g => [ {| gj_geometry := g; gj_style := st;
                                      gj_tooltip := tip r |} ]
                     | None => []
                     end) (rows d).

(** Lines 90 to 113: what is added to the folium map, in order. *)
Definition folium_map (f : frames) : list geojson :=
  add_layer {| style_fillColor := None; style_color := "grey";
               style_fillOpacity := F64.div (F64.of_Z 2) (F64.of_Z 10) |}
            (fun _ => None) (f_gdf_f f)
  ++ add_layer {| style_fillColor := Some "purple"%string; style_color := "purple";
                  style_fillOpacity := F64.lit_0_70 |}
               (fun r => Some (tooltip r)) (f_developed_f f)
  ++ add_layer {| style_fillColor := Some "red"%string; style_color := "red";
                  style_fillOpacity := F64.div (F64.of_Z 6) (F64.of_Z 10) |}
               (fun r => Some (tooltip r)) (f_hot_zones_f f).

(** The rows of [gdf] that line 37 leaves out of [developed]: the
    script never binds them to a name. *)
Definition other (gdf : Regions) : Regions :=
  select (fun r => negb (F64.ge (housing_density r) (high_density_threshold gdf))) gdf.

End Script.

Arguments Regions G : clear implicits.
Arguments frames G : clear implicits.
Arguments plot_call G : clear implicits.
Arguments geojson G : clear implicits.

(** ** An executable instance and a small data set *)

Module Example.

(** Geometries on a line: a finite union of closed intervals [(lo, hi)],
    in metres.  Reprojection is the identity. *)
Definition intervals : Type := list (Z * Z).

#[global] Instance intervals_geometry : Geometry intervals := {
  transform := fun _ _ g => g;
  buffer := fun g d => map (fun i => (fst i - d, snd i + d)) g;
  unary_union := fun gs => List.concat gs;
  intersects := fun a b =>
    existsb (fun i => existsb (fun j => (fst i <=? snd j) && (fst j <=? snd i)) b) a
}.

(** Decimal integers are the only strings read as numbers. *)
#[global] Instance decimal_text : Text := {
  float_repr := fun _ => str_lit "nan";
  str_to_float := fun s =>
    match int_of_str s with
    | Some z => Some (F64.of_Z z)
    | None => None
    end
}.

Definition boundary_row (k : string) (a : F64.float) (lo hi : Z) : boundary intervals cell :=
  {| SA2_CODE21 := CStr (str_lit k); AREASQKM21 := a; geometry := Some [(lo, hi)] |}.

Definition census_row (k : Z) (v : cell) : census cell cell :=
  {| SA2_CODE_2021 := CInt k; Total_Total := v |}.

(** Nine boundary rows: 104 has area zero, 105 has no area, 107 has no
    census row. *)
Definition shapefile : GeoDataFrame (boundary intervals cell) :=
  {| crs := Some 7844;
     rows := [ boundary_row "101" (F64.of_Z 10) 0 1000;
               boundary_row " 102 " (F64.of_Z 20) 5000 6000;
               boundary_row "103" (F64.of_Z 5) 11000 12000;
               boundary_row "104" F64.zero 90000 90000;
               boundary_row "105" F64.nan 13000 14000;
               boundary_row "106" (F64.of_Z 4) 50000 51000;
               boundary_row "107" (F64.of_Z 1) 7000 8000;
               boundary_row "109" (F64.of_Z 1) 95000 96000;
               boundary_row "110" (F64.of_Z 10) 500000 501000 ] |}.

(** Nine census rows: 106 has a count that is no number, 108 has no
    boundary row. *)
Definition csv : list (census cell cell) :=
  [ census_row 101 (CInt 5000);
    census_row 102 (CStr (str_lit "1000"));
    census_row 103 (CInt 25);
    census_row 104 (CInt 7);
    census_row 105 (CInt 300);
    census_row 106 (CStr (str_lit ".."));
    census_row 108 (CInt 12);
    census_row 109 (CInt 300);
    census_row 110 (CInt 200) ].

(** What the script computes on this data set. *)
Definition no_rows : GeoDataFrame (region intervals) := {| crs := None; rows := [] |}.

Definition no_frames : frames intervals :=
  {| f_gdf := no_rows; f_high_density_threshold := F64.nan; f_developed := no_rows;
     f_gdf_m := no_rows; f_developed_m := no_rows; f_buffered := no_rows;
     f_hot_zones_m := no_rows; f_gdf_f := no_rows; f_developed_f := no_rows;
     f_hot_zones_f := no_rows |}.

Definition out : frames intervals :=
  Eval vm_compute in
    match aggregate_data shapefile csv with
    | Ok f => f
    | Raised _ => no_frames
    end.

(** Rows of [out]: 101 and 104 are high-density, 102 is growth-ready,
    105 has an undefined density. *)
Definition row (i : nat) (d : GeoDataFrame (region intervals)) : region intervals :=
  nth i (rows d)
      {| shp := {| SA2_CODE21 := []; AREASQKM21 := F64.nan; geometry := None |};
         cen := {| SA2_CODE_2021 := []; Total_Total := F64.nan |};
         housing_density := F64.nan |}.

(** One hundred regions of area 1 with counts 1, 2, ..., 100. *)
Definition hundred_shapefile : GeoDataFrame (boundary intervals cell) :=
  {| crs := Some 7844;
     rows := map (fun i => {| SA2_CODE21 := CInt (Z.of_nat i);
                              AREASQKM21 := F64.of_Z 1;
                              geometry := None |}) (seq 1 100) |}.

Definition hundred_csv : list (census cell cell) :=
  map (fun i => {| SA2_CODE_2021 := CInt (Z.of_nat i);
                   Total_Total := CInt (Z.of_nat i) |}) (seq 1 100).

Definition hundred : frames intervals :=
  Eval vm_compute in
    match aggregate_data hundred_shapefile hundred_csv with
    | Ok f => f
    | Raised _ => no_frames
    end.

End Example.


(** ** Vocabulary of the statements *)

Section Vocabulary.

Context {G : Type} `{Geometry G} `{Text}.

(** A count cell is non-numeric when [pd.to_numeric] rejects it unless
    told to coerce, and missing when it is NaN. *)
Definition non_numeric_or_missing (c : cell) : bool :=
  match to_numeric_cell errors_raise c with
  | Raised _ => true
  | Ok v => F64.isna v
  end.

(** The normalised key of a raw key cell. *)
Definition normalised_key (c : cell) : str := strip (astype_str c).

(** The float [pd.to_numeric(..., errors='coerce')] leaves in a cell. *)
Definition coerce (c : cell) : F64.float :=
  match to_numeric_cell errors_coerce c with
  | Ok v => v
  | Raised _ => F64.nan
  end.

(** What lines 20 and 21 leave of a census table. *)
Definition cleaned (K : Type) (housing : list (census K cell))
  : list (census K F64.float) :=
  dropna (map (fun h => {| SA2_CODE_2021 := SA2_CODE_2021 h;
                           Total_Total := coerce (Total_Total h) |}) housing).

(** Lines 16 to 32 without the error plumbing. *)
Definition joined (shapefile : GeoDataFrame (boundary G cell))
    (csv : list (census cell cell)) : Regions G :=
  assign_housing_density
    (gdf_merge (strip_SA2_CODE21 shapefile) (cleaned (strip_SA2_CODE_2021 csv))).

(** The frames of a run on a joined table whose CRS is EPSG:[src]. *)
Definition frames_of (src : Z) (gdf : Regions G) : frames G :=
  let gdf_m := reproject src 3857 gdf in
  let developed_m := reproject src 3857 (developed gdf) in
  let hot := hot_zones_m gdf_m (buffered developed_m) (developed gdf) in
  {| f_gdf := gdf;
     f_high_density_threshold := high_density_threshold gdf;
     f_developed := developed gdf;
     f_gdf_m := gdf_m;
     f_developed_m := developed_m;
     f_buffered := buffered developed_m;
     f_hot_zones_m := hot;
     f_gdf_f := drop_missing_geometry (reproject 3857 4326 gdf_m);
     f_developed_f := drop_missing_geometry (reproject 3857 4326 developed_m);
     f_hot_zones_f := drop_missing_geometry (reproject 3857 4326 hot) |}.

(** The attribute columns of a row (everything but the geometry). *)
Definition attrs (r : region G) : str * F64.float * str * F64.float * F64.float :=
  (code r, area r, SA2_CODE_2021 (cen r), count r, housing_density r).

Definition all_frames (f : frames G) : list (Regions G) :=
  [ f_gdf f; f_developed f; f_gdf_m f; f_developed_m f; f_buffered f;
    f_hot_zones_m f; f_gdf_f f; f_developed_f f; f_hot_zones_f f ].

(** Every row of [d] carries the attributes of some row of [gdf]. *)
Definition derived (d gdf : Regions G) : Prop :=
  forall r, In r (rows d) -> exists r0, In r0 (rows gdf) /\ attrs r = attrs r0.

End Vocabulary.

(** ** Vocabulary of the further properties *)

(** Every character of [s] is whitespace. *)
Definition all_spaces (s : str) : bool := forallb is_space s.

(** No character of [s] is whitespace. *)
Definition no_space (s : str) : bool := forallb (fun c => negb (is_space c)) s.

Definition head_is_space (s : str) : bool :=
  match s with
  | [] => false
  | c :: _ => is_space c
  end.

Fixpoint last_is_space (s : str) : bool :=
  match s with
  | [] => false
  | c :: s' =>
      match s' with
      | [] => is_space c
      | _ => last_is_space s'
      end
  end.

(** [s] neither starts nor ends with whitespace. *)
Definition trimmed (s : str) : bool :=
  negb (head_is_space s) && negb (last_is_space s).

(** [x] is a number: not NaN. *)
Definition defined (x : F64.float) : Prop := F64.isna x = false.

(** [a <= b] holds. *)
Definition float_le (a b : F64.float) : Prop := F64.le a b = true.

(** The fraction [np.percentile] works with for the quantile 0.70:
    the literal times 100, divided by 100. *)
Definition fraction_070 : F64.float :=
  F64.div (F64.mul F64.lit_0_70 (F64.of_Z 100)) (F64.of_Z 100).

(** The position of the 0.70 quantile among [n] sorted values, counted
    from 0. *)
Definition position_070 (n : Z) : F64.float :=
  F64.mul (F64.of_Z (n - 1)) fraction_070.

(** The position among [n] values lies inside the column, and its
    integer part is that of the exact 7 (n - 1) / 10, or one less when
    the product was rounded down across an integer. *)
Definition position_in_range (n : Z) : bool :=
  let h := position_070 n in
  let k := F64.floor h in
  negb (F64.isna h) && negb (F64.lt h F64.zero)
  && negb (F64.ge h (F64.of_Z (n - 1)))
  && (0 <=? k) && (k + 1 <? n)
  && ((k =? 7 * (n - 1) / 10) || (k =? 7 * (n - 1) / 10 - 1)).

(** The largest number of rows the position was checked for. *)
Definition checked_rows : Z := 10000.

Definition is_zero (x : F64.float) : bool :=
  match x with S754_zero _ => true | _ => false end.

Definition is_infinite (x : F64.float) : bool :=
  match x with S754_infinity _ => true | _ => false end.

(** Further data sets. *)
Module Cases.

(** One region without area: its density is undefined. *)
Definition no_area_shapefile : GeoDataFrame (boundary Example.intervals cell) :=
  {| crs := Some 7844;
     rows := [ Example.boundary_row "105" F64.nan 13000 14000 ] |}.

Definition no_area_csv : list (census cell cell) :=
  [ Example.census_row 105 (CInt 300) ].

Definition no_area : frames Example.intervals :=
  Eval vm_compute in
    match aggregate_data no_area_shapefile no_area_csv with
    | Ok f => f
    | Raised _ => Example.no_frames
    end.

(** Three neighbouring regions of densities 1, 2 and 3. *)
Definition sparse_shapefile : GeoDataFrame (boundary Example.intervals cell) :=
  {| crs := Some 7844;
     rows := [ Example.boundary_row "201" (F64.of_Z 1) 0 1000;
               Example.boundary_row "202" (F64.of_Z 1) 2000 3000;
               Example.boundary_row "203" (F64.of_Z 1) 4000 5000 ] |}.

Definition sparse_csv : list (census cell cell) :=
  [ Example.census_row 201 (CInt 1);
    Example.census_row 202 (CInt 2);
    Example.census_row 203 (CInt 3) ].

Definition sparse : frames Example.intervals :=
  Eval vm_compute in
    match aggregate_data sparse_shapefile sparse_csv with
    | Ok f => f
    | Raised _ => Example.no_frames
    end.

End Cases.

Create HintDb frames_db.

(** ** Basic facts *)

Section Facts.

Context {G : Type} `{Geometry G} `{Text}.

Lemma str_eqb_eq (a b : str) : str_eqb a b = true <-> a = b.
Proof.
  revert b. induction a as [|x a IH]; intros [|y b]; simpl;
    try (split; [discriminate|discriminate]); [tauto|].
  rewrite andb_true_iff, N.eqb_eq, IH. split.
  - intros [-> ->]. reflexivity.
  - intros E. inversion E. auto.
Qed.

Lemma in_select (R : Type) (mask : R -> bool) (d : GeoDataFrame R) (r : R) :
  In r (rows (select mask d)) <-> In r (rows d) /\ mask r = true.
Proof. unfold select; simpl. apply filter_In. Qed.

(** *** Comparisons with NaN and with infinity *)

Lemma isna_nan (x : F64.float) : F64.isna x = true -> x = F64.nan.
Proof. destruct x; simpl; intros E; try discriminate; reflexivity. Qed.

Lemma ge_nan_l (t : F64.float) : F64.ge F64.nan t = false.
Proof. destruct t; reflexivity. Qed.

Lemma ge_nan_r (x : F64.float) : F64.ge x F64.nan = false.
Proof. reflexivity. Qed.

Lemma le_nan_l (t : F64.float) : F64.le F64.nan t = false.
Proof. reflexivity. Qed.

Lemma ge_inf (t : F64.float) : F64.isna t = false -> F64.ge F64.inf t = true.
Proof.
  destruct t as [s|s| |s m e]; simpl; intros E; try discriminate;
    destruct s; reflexivity.
Qed.

Lemma div_nan_r (x : F64.float) : F64.div x F64.nan = F64.nan.
Proof. destruct x; reflexivity. Qed.

Lemma div_pos_zero (x : F64.float) :
  F64.lt F64.zero x = true -> F64.div x F64.zero = F64.inf.
Proof.
  destruct x as [s|s| |s m e]; simpl; try discriminate;
    destruct s; simpl; try discriminate; reflexivity.
Qed.

(** *** The loader never raises *)

Lemma to_numeric_cell_coerce (c : cell) :
  to_numeric_cell errors_coerce c = Ok (coerce c).
Proof.
  unfold coerce. destruct c as [z|f|s]; simpl; try reflexivity.
  destruct (str_to_float s); reflexivity.
Qed.

Lemma to_numeric_coerce (col : list cell) :
  to_numeric errors_coerce col = Ok (map coerce col).
Proof.
  unfold to_numeric. induction col as [|c col IH]; simpl; [reflexivity|].
  rewrite to_numeric_cell_coerce; simpl. rewrite IH; reflexivity.
Qed.

Lemma coerce_numeric (c : cell) (v : F64.float) :
  to_numeric_cell errors_raise c = Ok v -> coerce c = v.
Proof.
  unfold coerce. destruct c as [z|f|s]; simpl; try congruence.
  destruct (str_to_float s); simpl; congruence.
Qed.

Lemma coerce_not_na (c : cell) :
  F64.isna (coerce c) = false <-> non_numeric_or_missing c = false.
Proof.
  unfold non_numeric_or_missing, coerce.
  destruct c as [z|f|s]; simpl; try tauto.
  destruct (str_to_float s); simpl; try tauto.
Qed.

Lemma coerce_not_na_raise (c : cell) :
  F64.isna (coerce c) = false ->
  to_numeric_cell errors_raise c = Ok (coerce c).
Proof.
  unfold coerce. destruct c as [z|f|s]; simpl; try reflexivity.
  destruct (str_to_float s); simpl; [reflexivity|discriminate].
Qed.

Lemma assign_Total_Total_map (K V W : Type) (f : V -> W) (housing : list (census K V)) :
  assign_Total_Total housing (map f (map (@Total_Total K V) housing))
  = map (fun h => {| SA2_CODE_2021 := SA2_CODE_2021 h;
                     Total_Total := f (Total_Total h) |}) housing.
Proof.
  unfold assign_Total_Total.
  induction housing as [|h t IH]; simpl; [reflexivity|]. now rewrite IH.
Qed.

Lemma housing_numeric_cleaned (housing : list (census str cell)) :
  housing_numeric housing = Ok (cleaned housing).
Proof.
  unfold housing_numeric, cleaned. rewrite to_numeric_coerce; simpl.
  now rewrite assign_Total_Total_map.
Qed.

Lemma in_cleaned (K : Type) (housing : list (census K cell)) (h' : census K F64.float) :
  In h' (cleaned housing) <->
  exists h, In h housing /\ non_numeric_or_missing (Total_Total h) = false
            /\ SA2_CODE_2021 h' = SA2_CODE_2021 h
            /\ to_numeric_cell errors_raise (Total_Total h) = Ok (Total_Total h').
Proof.
  unfold cleaned, dropna. rewrite filter_In, in_map_iff. split.
  - intros [(h & <- & Hin) Hna]; simpl in *.
    apply negb_true_iff in Hna. exists h. repeat split; auto.
    + now apply coerce_not_na.
    + now apply coerce_not_na_raise.
  - intros (h & Hin & Hnum & Hk & Hv). destruct h' as [k v]; simpl in *.
    pose proof (coerce_numeric _ Hv) as Ec.
    split.
    + exists h. split; [|assumption]. now rewrite Ec, Hk.
    + simpl. apply negb_true_iff. rewrite <- Ec. now apply coerce_not_na.
Qed.

Lemma cleaned_filter (K : Type) (housing : list (census K cell)) :
  cleaned (filter (fun h => negb (non_numeric_or_missing (Total_Total h))) housing)
  = cleaned housing.
Proof.
  unfold cleaned, dropna.
  induction housing as [|h t IH]; simpl; [reflexivity|].
  destruct (non_numeric_or_missing (Total_Total h)) eqn:E; simpl.
  - assert (F64.isna (coerce (Total_Total h)) = true) as ->.
    { destruct (F64.isna (coerce (Total_Total h))) eqn:E'; [reflexivity|].
      apply coerce_not_na in E'. congruence. }
    simpl. exact IH.
  - apply coerce_not_na in E. rewrite E; simpl. now rewrite IH.
Qed.

Lemma strip_SA2_CODE_2021_filter (V : Type) (p : V -> bool) (csv : list (census cell V)) :
  strip_SA2_CODE_2021 (filter (fun h => p (Total_Total h)) csv)
  = filter (fun h => p (Total_Total h)) (strip_SA2_CODE_2021 csv).
Proof.
  unfold strip_SA2_CODE_2021.
  induction csv as [|h t IH]; simpl; [reflexivity|].
  destruct (p (Total_Total h)); simpl; now rewrite IH.
Qed.

Lemma load_and_join_eq (shapefile : GeoDataFrame (boundary G cell))
    (csv : list (census cell cell)) :
  load_and_join shapefile csv = Ok (joined shapefile csv).
Proof. unfold load_and_join, joined. now rewrite housing_numeric_cleaned. Qed.

(** *** The join *)

Lemma in_merge (left : list (boundary G str))
    (right : list (census str F64.float)) l r :
  In (l, r) (merge left right)
  <-> In l left /\ In r right /\ SA2_CODE21 l = SA2_CODE_2021 r.
Proof.
  unfold merge. rewrite in_flat_map. split.
  - intros (l' & Hl & Hin). apply in_map_iff in Hin.
    destruct Hin as (r' & E & Hr). inversion E; subst.
    apply filter_In in Hr. destruct Hr as [Hr Heq].
    apply str_eqb_eq in Heq. auto.
  - intros (Hl & Hr & Heq). exists l. split; [assumption|].
    apply in_map. apply filter_In. split; [assumption|].
    now apply str_eqb_eq.
Qed.


Lemma in_joined (shapefile : GeoDataFrame (boundary G cell))
    (csv : list (census cell cell)) (r : region G) :
  In r (rows (joined shapefile csv)) <->
  housing_density r = F64.div (count r) (area r)
  /\ code r = SA2_CODE_2021 (cen r)
  /\ (exists b, In b (rows shapefile)
                /\ normalised_key (SA2_CODE21 b) = code r
                /\ AREASQKM21 b = area r /\ geometry b = geom r)
  /\ (exists h, In h csv
                /\ normalised_key (SA2_CODE_2021 h) = SA2_CODE_2021 (cen r)
                /\ non_numeric_or_missing (Total_Total h) = false
                /\ to_numeric_cell errors_raise (Total_Total h) = Ok (count r)).
Proof.
  unfold joined, assign_housing_density, gdf_merge; simpl.
  rewrite in_map_iff. split.
  - intros ([l c0] & <- & Hin); simpl.
    apply in_merge in Hin. destruct Hin as (Hl & Hc & Hk).
    unfold strip_SA2_CODE21 in Hl; simpl in Hl. apply in_map_iff in Hl.
    destruct Hl as (b0 & <- & Hb).
    apply in_cleaned in Hc. destruct Hc as (h & Hh & Hnum & Hkey & Hval).
    unfold strip_SA2_CODE_2021 in Hh. apply in_map_iff in Hh.
    destruct Hh as (h0 & <- & Hh0). simpl in *.
    unfold count, area, code, geom; simpl.
    repeat split; auto.
    + exists b0. auto.
    + exists h0. repeat split; auto.
  - intros (Hd & Hk & (b0 & Hb & Hbk & Hba & Hbg) & (h0 & Hh & Hhk & Hnum & Hval)).
    destruct r as [[k a g] [k' v] d]; unfold count, area, code, geom in *; simpl in *.
    exists ({| SA2_CODE21 := k; AREASQKM21 := a; geometry := g |},
            {| SA2_CODE_2021 := k'; Total_Total := v |}); simpl.
    split; [now rewrite Hd|].
    apply in_merge; simpl. repeat split; auto.
    + unfold strip_SA2_CODE21; simpl. apply in_map_iff.
      exists b0. split; [|assumption].
      fold (normalised_key (SA2_CODE21 b0)). now rewrite Hbk, Hba, Hbg.
    + apply in_cleaned.
      exists {| SA2_CODE_2021 := normalised_key (SA2_CODE_2021 h0);
                Total_Total := Total_Total h0 |}; simpl.
      repeat split; auto.
      unfold strip_SA2_CODE_2021. apply in_map_iff. exists h0. auto.
Qed.


(** *** Frames of a run *)

Lemma classify_eq (gdf : Regions G) :
  classify gdf =
  match crs gdf with
  | Some src => Ok (frames_of src gdf)
  | None =>
      Raised (ValueError
        "Cannot transform naive geometries.  Please set a crs on the object first.")
  end.
Proof. unfold classify, to_crs; simpl. destruct (crs gdf); reflexivity. Qed.

Lemma classify_inv (gdf : Regions G) (f : frames G) :
  classify gdf = Ok f -> exists src, crs gdf = Some src /\ f = frames_of src gdf.
Proof.
  rewrite classify_eq. destruct (crs gdf) as [src|]; [|discriminate].
  intros E; inversion E. now exists src.
Qed.

Lemma aggregate_data_eq (shapefile : GeoDataFrame (boundary G cell))
    (csv : list (census cell cell)) :
  aggregate_data shapefile csv = classify (joined shapefile csv).
Proof. unfold aggregate_data. now rewrite load_and_join_eq. Qed.

Lemma aggregate_data_inv (shapefile : GeoDataFrame (boundary G cell))
    (csv : list (census cell cell)) (f : frames G) :
  aggregate_data shapefile csv = Ok f ->
  exists src, crs shapefile = Some src /\ f = frames_of src (joined shapefile csv).
Proof. rewrite aggregate_data_eq. apply classify_inv. Qed.

Lemma in_reproject (src dst : Z) (d : Regions G) (r' : region G) :
  In r' (rows (reproject src dst d)) <->
  exists r, In r (rows d) /\ r' = with_geometry (option_map (transform src dst)) r.
Proof.
  unfold reproject; simpl. rewrite in_map_iff.
  split; intros (r & A & B); exists r; auto.
Qed.

Lemma in_buffered (d : Regions G) (r' : region G) :
  In r' (rows (buffered d)) <->
  exists r, In r (rows d)
            /\ r' = with_geometry (option_map (fun g => buffer g buffer_distance)) r.
Proof.
  unfold buffered; simpl. rewrite in_map_iff.
  split; intros (r & A & B); exists r; auto.
Qed.

Lemma isin_In (s : str) (values : list str) :
  isin s values = true <-> In s values.
Proof.
  unfold isin. rewrite existsb_exists. split.
  - intros (x & Hx & E). apply str_eqb_eq in E. now subst.
  - intros Hin. exists s. split; [assumption|now apply str_eqb_eq].
Qed.

Lemma in_hot_zones_m (gdf_m buf dev : Regions G) (r : region G) :
  In r (rows (hot_zones_m gdf_m buf dev)) <->
  In r (rows gdf_m)
  /\ geom_intersects (frame_unary_union buf) r = true
  /\ ~ In (code r) (map (@code G) (rows dev))
  /\ F64.ge (housing_density r) (F64.of_Z min_density) = true
  /\ F64.le (housing_density r) (F64.of_Z max_density) = true.
Proof.
  unfold hot_zones_m, hot_zones_in_band, hot_zones_not_developed,
    hot_zones_intersecting.
  rewrite !in_select, andb_true_iff, negb_true_iff.
  rewrite <- isin_In, not_true_iff_false. tauto.
Qed.

Lemma geometries_buffered (d : Regions G) :
  geometries (buffered d) = map (fun g => buffer g buffer_distance) (geometries d).
Proof.
  unfold geometries, buffered; simpl.
  induction (rows d) as [|r t IH]; simpl; [reflexivity|].
  rewrite IH. unfold geom; simpl. destruct (geometry (shp r)); reflexivity.
Qed.

(** *** Attributes travel unchanged *)

Lemma attrs_eq (r r0 : region G) :
  attrs r = attrs r0 ->
  code r = code r0 /\ area r = area r0 /\ count r = count r0
  /\ housing_density r = housing_density r0.
Proof. unfold attrs. intros E. inversion E. auto. Qed.

Lemma derived_refl (gdf : Regions G) : derived gdf gdf.
Proof. intros r Hr. now exists r. Qed.

Lemma derived_select (mask : region G -> bool) (d gdf : Regions G) :
  derived d gdf -> derived (select mask d) gdf.
Proof. intros Hd r Hr. apply in_select in Hr. now apply Hd. Qed.

Lemma derived_reproject (src dst : Z) (d gdf : Regions G) :
  derived d gdf -> derived (reproject src dst d) gdf.
Proof.
  intros Hd r Hr. apply in_reproject in Hr. destruct Hr as (r1 & Hr1 & ->).
  destruct (Hd r1 Hr1) as (r0 & Hr0 & E). exists r0. split; [assumption|exact E].
Qed.

Lemma derived_buffered (d gdf : Regions G) :
  derived d gdf -> derived (buffered d) gdf.
Proof.
  intros Hd r Hr. apply in_buffered in Hr. destruct Hr as (r1 & Hr1 & ->).
  destruct (Hd r1 Hr1) as (r0 & Hr0 & E). exists r0. split; [assumption|exact E].
Qed.

Lemma derived_hot_zones_m (gdf_m buf dev gdf : Regions G) :
  derived gdf_m gdf -> derived (hot_zones_m gdf_m buf dev) gdf.
Proof. intros Hd. unfold hot_zones_m. now repeat apply derived_select. Qed.

#[local] Hint Resolve derived_refl derived_select derived_reproject
  derived_buffered derived_hot_zones_m : frames_db.

Lemma frames_derived (src : Z) (gdf d : Regions G) :
  In d (all_frames (frames_of src gdf)) -> derived d gdf.
Proof.
  unfold all_frames, frames_of, developed, drop_missing_geometry; simpl.
  intros Hd.
  repeat (destruct Hd as [<- | Hd]; [auto 8 with frames_db|]); try contradiction.
Qed.

End Facts.

#[global] Hint Resolve derived_refl derived_select derived_reproject
  derived_buffered derived_hot_zones_m : frames_db.

(** ** Worked examples *)

Example strip_trims_both_ends : strip (str_lit "  SA2 101  ") = str_lit "SA2 101".
Proof. reflexivity. Qed.

Example str_of_negative_int : str_of_int (-12) = str_lit "-12".
Proof. reflexivity. Qed.

(** Densities 500, 50 and 5: the threshold lies between 50 and 500, so
    only the first is high-density. *)
Example quantile_of_three :
  let t := Quantile.quantile [F64.of_Z 500; F64.of_Z 50; F64.of_Z 5] F64.lit_0_70 in
  F64.ge (F64.of_Z 500) t = true
  /\ F64.ge (F64.of_Z 50) t = false
  /\ F64.ge (F64.of_Z 5) t = false.
Proof. vm_compute. auto. Qed.

(** Missing values are skipped by the quantile. *)
Example quantile_skips_nan :
  Quantile.quantile [F64.nan; F64.of_Z 3; F64.nan; F64.of_Z 1] F64.lit_0_70
  = Quantile.quantile [F64.of_Z 1; F64.of_Z 3] F64.lit_0_70.
Proof. reflexivity. Qed.

Lemma example_run :
  aggregate_data Example.shapefile Example.csv = Ok Example.out.
Proof. vm_compute. reflexivity. Qed.

Lemma hundred_run :
  aggregate_data Example.hundred_shapefile Example.hundred_csv = Ok Example.hundred.
Proof. vm_compute. reflexivity. Qed.

Unset Implicit Arguments.

(** ** Data loader and join *)

Section Loader.

Context {G : Type} `{Geometry G} `{Text}.

(** C9.  Rows of the census table whose count is non-numeric or missing
    are dropped before the join and nothing is raised: the cleaning
    step always returns, it keeps exactly the rows with a numeric count,
    the joined table is produced for every input and contains no row
    built from a dropped one, and the whole run is the run on the
    remaining rows. *)
Theorem non_numeric_counts_dropped_silently
    (shapefile : GeoDataFrame (boundary G cell)) (csv : list (census cell cell)) :
  (exists housing,
      housing_numeric (strip_SA2_CODE_2021 csv) = Ok housing
      /\ forall k v,
          In {| SA2_CODE_2021 := k; Total_Total := v |} housing <->
          exists h, In h csv
                    /\ normalised_key (SA2_CODE_2021 h) = k
                    /\ non_numeric_or_missing (Total_Total h) = false
                    /\ to_numeric_cell errors_raise (Total_Total h) = Ok v)
  /\ (exists gdf,
        load_and_join shapefile csv = Ok gdf
        /\ forall r, In r (rows gdf) ->
                     exists h, In h csv
                               /\ non_numeric_or_missing (Total_Total h) = false
                               /\ to_numeric_cell errors_raise (Total_Total h)
                                  = Ok (count r))
  /\ aggregate_data shapefile csv
     = aggregate_data shapefile
         (filter (fun h => negb (non_numeric_or_missing (Total_Total h))) csv).
Proof.
  split; [|split].
  - exists (cleaned (strip_SA2_CODE_2021 csv)).
    split; [apply housing_numeric_cleaned|].
    intros k v. rewrite in_cleaned. unfold strip_SA2_CODE_2021. split.
    + intros (h & Hh & Hnum & Hk & Hv). apply in_map_iff in Hh.
      destruct Hh as (h0 & <- & Hh0). simpl in *. exists h0. subst k. auto.
    + intros (h0 & Hh0 & Hk & Hnum & Hv).
      exists {| SA2_CODE_2021 := normalised_key (SA2_CODE_2021 h0);
                Total_Total := Total_Total h0 |}; simpl.
      repeat split; auto. apply in_map_iff. exists h0. auto.
  - exists (joined shapefile csv). split; [apply load_and_join_eq|].
    intros r Hr. apply in_joined in Hr.
    destruct Hr as (_ & _ & _ & (h & Hh & _ & Hnum & Hv)). exists h. auto.
  - rewrite !aggregate_data_eq. unfold joined.
    rewrite (strip_SA2_CODE_2021_filter (fun c => negb (non_numeric_or_missing c))).
    now rewrite cleaned_filter.
Qed.

(** C6.  The merge is an inner join on the normalised key.  A pair of
    rows is in the merged table exactly when both rows are in their
    tables and carry the same key; hence a key is in the output exactly
    when it is a key of both tables, and in the script's joined table
    exactly when it is the normalised key of a boundary row and of a
    census row that survived the cleaning.  Normalising turns the
    string " 102 ", the integer 102 and the string 102 wrapped in
    no-break, em, ideographic and NEL spaces into the same key. *)
Theorem merge_is_inner_join
    (shapefile : GeoDataFrame (boundary G cell)) (csv : list (census cell cell)) :
  (forall (left : GeoDataFrame (boundary G str))
          (right : list (census str F64.float)) l r,
      In (l, r) (rows (gdf_merge left right)) <->
      In l (rows left) /\ In r right /\ SA2_CODE21 l = SA2_CODE_2021 r)
  /\ (forall (left : GeoDataFrame (boundary G str))
             (right : list (census str F64.float)) k,
        In k (map (fun lr => SA2_CODE21 (fst lr)) (rows (gdf_merge left right))) <->
        In k (map (@SA2_CODE21 G str) (rows left))
        /\ In k (map (@SA2_CODE_2021 str F64.float) right))
  /\ (exists gdf,
        load_and_join shapefile csv = Ok gdf
        /\ forall k,
            In k (map (@code G) (rows gdf)) <->
            (exists b, In b (rows shapefile) /\ normalised_key (SA2_CODE21 b) = k)
            /\ (exists h, In h csv
                          /\ normalised_key (SA2_CODE_2021 h) = k
                          /\ non_numeric_or_missing (Total_Total h) = false))
  /\ normalised_key (CStr (str_lit " 102 ")) = str_lit "102"
  /\ normalised_key (CInt 102) = str_lit "102"
  /\ normalised_key (CStr ([160; 8195] ++ str_lit "102" ++ [12288; 133])%N)
     = str_lit "102".
Proof.
  split; [|split; [|split; [|repeat split; reflexivity]]].
  - intros left right l r. apply in_merge.
  - intros left right k. simpl. rewrite !in_map_iff. split.
    + intros ([l r] & <- & Hin). apply in_merge in Hin.
      destruct Hin as (Hl & Hr & E). simpl. split.
      * now exists l.
      * exists r. auto.
    + intros [(l & <- & Hl) (r & E & Hr)].
      exists (l, r). split; [reflexivity|]. apply in_merge. auto.
  - exists (joined shapefile csv). split; [apply load_and_join_eq|].
    intros k. rewrite in_map_iff. split.
    + intros (r & <- & Hr). apply in_joined in Hr.
      destruct Hr as (_ & Hk & (b0 & Hb & Hbk & _) & (h & Hh & Hhk & Hnum & _)).
      split; [now exists b0|]. exists h. rewrite Hk. auto.
    + intros [(b0 & Hb & Hbk) (h & Hh & Hhk & Hnum)].
      exists {| shp := {| SA2_CODE21 := k; AREASQKM21 := AREASQKM21 b0;
                          geometry := geometry b0 |};
                cen := {| SA2_CODE_2021 := k; Total_Total := coerce (Total_Total h) |};
                housing_density := F64.div (coerce (Total_Total h)) (AREASQKM21 b0) |}.
      split; [reflexivity|]. apply in_joined.
      unfold count, area, code, geom; simpl. repeat split.
      * exists b0. auto.
      * exists h. repeat split; auto.
        apply coerce_not_na_raise. now apply coerce_not_na.
Qed.

(** C3.  In every frame of a run, the density of a row is the binary64
    quotient of its count by its area, where the area is that of a
    boundary row and the count the number read from a census row with
    the same normalised key. *)
Theorem density_is_count_over_area
    (shapefile : GeoDataFrame (boundary G cell)) (csv : list (census cell cell))
    (f : frames G) (d : Regions G) (r : region G) :
  aggregate_data shapefile csv = Ok f ->
  In d (all_frames f) ->
  In r (rows d) ->
  housing_density r = F64.div (count r) (area r)
  /\ exists b h,
      In b (rows shapefile) /\ In h csv
      /\ normalised_key (SA2_CODE21 b) = code r
      /\ normalised_key (SA2_CODE_2021 h) = code r
      /\ AREASQKM21 b = area r
      /\ to_numeric_cell errors_raise (Total_Total h) = Ok (count r).
Proof.
  intros Hrun Hd Hr. apply aggregate_data_inv in Hrun.
  destruct Hrun as (src & _ & ->).
  pose proof (frames_derived Hd) as Hder.
  destruct (Hder r Hr) as (r0 & Hr0 & E).
  apply attrs_eq in E. destruct E as (Ecode & Earea & Ecount & Edens).
  apply in_joined in Hr0.
  destruct Hr0 as (Hq & Hk & (b0 & Hb & Hbk & Hba & _) & (h & Hh & Hhk & _ & Hv)).
  split; [congruence|].
  exists b0, h. repeat split; auto; congruence.
Qed.

End Loader.

Lemma density_is_count_over_area_holds :
  aggregate_data Example.shapefile Example.csv = Ok Example.out
  /\ In (f_hot_zones_m Example.out) (all_frames Example.out)
  /\ In (Example.row 0 (f_hot_zones_m Example.out)) (rows (f_hot_zones_m Example.out))
  /\ housing_density (Example.row 0 (f_hot_zones_m Example.out))
     = F64.div (F64.of_Z 1000) (F64.of_Z 20).
Proof.
  assert (Hd : In (f_hot_zones_m Example.out) (all_frames Example.out))
    by (vm_compute; tauto).
  assert (Hr : In (Example.row 0 (f_hot_zones_m Example.out))
                  (rows (f_hot_zones_m Example.out)))
    by (vm_compute; tauto).
  split; [exact example_run|]. split; [exact Hd|]. split; [exact Hr|].
  exact (proj1 (density_is_count_over_area _ _ _ _ _ example_run Hd Hr)).
Defined.

(** ** Classifier *)

Section Classifier.

Context {G : Type} `{Geometry G} `{Text}.

Lemma filter_split_perm (A : Type) (p : A -> bool) (l : list A) :
  Permutation (filter p l ++ filter (fun x => negb (p x)) l) l.
Proof.
  induction l as [|a l IH]; simpl; [constructor|].
  destruct (p a); simpl.
  - now constructor.
  - apply Permutation_sym, Permutation_cons_app, Permutation_sym, IH.
Qed.

Lemma filter_none (A : Type) (p : A -> bool) (l : list A) :
  (forall x, In x l -> p x = false) -> filter p l = [].
Proof.
  induction l as [|a l IH]; simpl; intros Hp; [reflexivity|].
  rewrite (Hp a) by auto. auto.
Qed.

Lemma filter_all (A : Type) (p : A -> bool) (l : list A) :
  (forall x, In x l -> p x = true) -> filter p l = l.
Proof.
  induction l as [|a l IH]; simpl; intros Hp; [reflexivity|].
  rewrite (Hp a) by auto. f_equal. auto.
Qed.

Lemma le_trans (a b c : F64.float) :
  F64.le a b = true -> F64.le b c = true -> F64.le a c = true.
Proof.
  unfold F64.le, SFleb.
  destruct a as [sa|sa| |sa ma ea], b as [sb|sb| |sb mb eb], c as [sc|sc| |sc mc ec];
    simpl; try discriminate; try reflexivity;
    try (destruct sa; try discriminate; try reflexivity);
    try (destruct sb; try discriminate; try reflexivity);
    try (destruct sc; try discriminate; try reflexivity).
  all: change (PosDef.Pos.compare_cont Eq ma mb) with (Pos.compare ma mb);
    change (PosDef.Pos.compare_cont Eq mb mc) with (Pos.compare mb mc);
    change (PosDef.Pos.compare_cont Eq ma mc) with (Pos.compare ma mc);
    destruct (Z.compare_spec ea eb), (Z.compare_spec eb ec), (Z.compare_spec ea ec);
    simpl; try lia; try discriminate; try reflexivity;
    destruct (Pos.compare_spec ma mb), (Pos.compare_spec mb mc),
      (Pos.compare_spec ma mc);
    simpl; try lia; try discriminate; try reflexivity.
Qed.

Lemma le_total (a b : F64.float) :
  defined a -> defined b -> F64.le a b = false -> F64.le b a = true.
Proof.
  unfold defined, F64.le, SFleb.
  destruct a as [sa|sa| |sa ma ea], b as [sb|sb| |sb mb eb];
    simpl; try discriminate; try reflexivity; intros _ _;
    try (destruct sa; try discriminate; try reflexivity);
    try (destruct sb; try discriminate; try reflexivity).
  all: change (PosDef.Pos.compare_cont Eq ma mb) with (Pos.compare ma mb);
    change (PosDef.Pos.compare_cont Eq mb ma) with (Pos.compare mb ma);
    destruct (Z.compare_spec ea eb), (Z.compare_spec eb ea);
    simpl; try lia; try discriminate; try reflexivity;
    destruct (Pos.compare_spec ma mb), (Pos.compare_spec mb ma);
    simpl; try lia; try discriminate; try reflexivity.
Qed.

(** *** The quantile *)

Lemma insert_rearranges (x : F64.float) (l : list F64.float) :
  Permutation (x :: l) (Quantile.insert x l).
Proof.
  induction l as [|y l IH]; simpl; [reflexivity|].
  destruct (F64.le x y); [reflexivity|].
  rewrite perm_swap. now constructor.
Qed.

Lemma sort_rearranges (l : list F64.float) : Permutation l (Quantile.sort l).
Proof.
  induction l as [|x l IH]; simpl; [constructor|].
  rewrite <- insert_rearranges. now constructor.
Qed.

Lemma sort_length (l : list F64.float) :
  List.length (Quantile.sort l) = List.length l.
Proof. symmetry. apply Permutation_length, sort_rearranges. Qed.

Lemma insert_keeps_order (x : F64.float) (l : list F64.float) :
  defined x -> Forall defined l ->
  StronglySorted float_le l -> StronglySorted float_le (Quantile.insert x l).
Proof.
  intros Hx Hl Hs. induction Hs as [|y l Hs IH Hy]; simpl.
  - repeat constructor.
  - inversion Hl as [|? ? Hdy Hdl]; subst.
    destruct (F64.le x y) eqn:E.
    + constructor; [now constructor|]. constructor; [exact E|].
      eapply Forall_impl; [|exact Hy]. intros z Hz.
      exact (le_trans _ _ _ E Hz).
    + constructor; [now apply IH|].
      apply Forall_forall. intros z Hz.
      apply (Permutation_in _ (Permutation_sym (insert_rearranges x l))) in Hz.
      destruct Hz as [<-|Hz].
      * now apply le_total.
      * rewrite Forall_forall in Hy. now apply Hy.
Qed.

Lemma sort_ascending (l : list F64.float) :
  Forall defined l -> StronglySorted float_le (Quantile.sort l).
Proof.
  induction l as [|x l IH]; simpl; intros Hl; [constructor|].
  inversion Hl as [|? ? Hx Hl']; subst.
  apply insert_keeps_order; auto.
  apply Forall_forall. intros z Hz.
  apply (Permutation_in _ (Permutation_sym (sort_rearranges l))) in Hz.
  rewrite Forall_forall in Hl'. now apply Hl'.
Qed.

Lemma position_in_range_checked :
  forallb (fun i => position_in_range (Z.of_nat i))
          (seq 2 (Z.to_nat checked_rows - 1)) = true.
Proof. vm_compute. reflexivity. Qed.

Lemma percentile_interpolates (values : list F64.float) :
  position_in_range (Z.of_nat (List.length values)) = true ->
  Quantile.percentile values (F64.mul F64.lit_0_70 (F64.of_Z 100))
  = Quantile.lerp
      (nth (Z.to_nat (F64.floor (position_070 (Z.of_nat (List.length values)))))
           (Quantile.sort values) F64.nan)
      (nth (Z.to_nat (F64.floor (position_070 (Z.of_nat (List.length values))) + 1))
           (Quantile.sort values) F64.nan)
      (F64.sub (position_070 (Z.of_nat (List.length values)))
               (F64.of_Z (F64.floor (position_070 (Z.of_nat (List.length values)))))).
Proof.
  unfold position_in_range. cbv zeta.
  rewrite !andb_true_iff, !negb_true_iff, Z.leb_le, Z.ltb_lt.
  intros (((((Hna & Hlt) & Hge) & Hk0) & Hk1) & _).
  unfold Quantile.percentile. cbv zeta. rewrite sort_length.
  fold fraction_070. fold (position_070 (Z.of_nat (List.length values))).
  rewrite Hna, Hlt, Hge.
  unfold Quantile.item.
  destruct (F64.floor (position_070 (Z.of_nat (List.length values))) <? 0) eqn:E1;
    [apply Z.ltb_lt in E1; lia|].
  destruct (F64.floor (position_070 (Z.of_nat (List.length values))) + 1 <? 0) eqn:E2;
    [apply Z.ltb_lt in E2; lia|].
  reflexivity.
Qed.

Lemma sub_self (x : F64.float) :
  defined x -> is_infinite x = false -> F64.sub x x = F64.zero.
Proof.
  unfold defined.
  destruct x as [s|s| |s m e]; simpl; try discriminate; intros _ _.
  - destruct s; reflexivity.
  - unfold F64.sub, SFsub. cbv zeta.
    match goal with
    | |- binary_normalize _ _ (?f ?a ?a) _ _ = _ =>
        assert (E : f a a = 0) by apply Z.sub_diag; rewrite E
    end.
    reflexivity.
Qed.

Lemma lerp_between_equal (x g : F64.float) :
  defined x -> is_infinite x = false ->
  F64.ge g Quantile.half = true ->
  F64.sub (F64.of_Z 1) g = F64.zero ->
  Quantile.lerp x x g = x.
Proof.
  intros Hna Hinf Hg H1. unfold Quantile.lerp. cbv zeta.
  rewrite Hg, H1, (sub_self x Hna Hinf).
  destruct x as [s|s| |s m e]; try discriminate; try reflexivity.
  destruct s; reflexivity.
Qed.

Lemma quantile_of_one_value (x : F64.float) :
  defined x -> is_infinite x = false ->
  Quantile.quantile [x] F64.lit_0_70 = x.
Proof.
  intros Hna Hinf. unfold Quantile.quantile. simpl filter.
  rewrite Hna. simpl negb. cbv iota.
  unfold Quantile.percentile. cbv zeta.
  change (Quantile.sort [x]) with [x].
  change (Z.of_nat (List.length [x]) - 1) with 0.
  match goal with
  | |- context [F64.mul (F64.of_Z 0) ?b] =>
      let v := eval vm_compute in (F64.mul (F64.of_Z 0) b) in
      change (F64.mul (F64.of_Z 0) b) with v
  end.
  change (F64.isna (S754_zero false)) with false.
  change (F64.lt (S754_zero false) F64.zero) with false.
  change (F64.ge (S754_zero false) (F64.of_Z 0)) with true.
  cbv iota.
  change (Quantile.item [x] (-1)) with x.
  apply lerp_between_equal; auto; vm_compute; reflexivity.
Qed.

Lemma filter_twice (A : Type) (p : A -> bool) (l : list A) :
  filter p (filter p l) = filter p l.
Proof.
  apply filter_all. intros x Hx. apply filter_In in Hx. tauto.
Qed.

Lemma ge_refl (t : F64.float) : F64.isna t = false -> F64.ge t t = true.
Proof.
  unfold F64.ge, SFleb.
  destruct t as [s|s| |s m e]; simpl; intros E; try discriminate;
    try (destruct s; reflexivity).
  rewrite Z.compare_refl, Pos.compare_cont_refl. destruct s; reflexivity.
Qed.

Lemma in_developed (gdf : Regions G) (r : region G) :
  In r (rows (developed gdf)) <->
  In r (rows gdf) /\ F64.ge (housing_density r) (high_density_threshold gdf) = true.
Proof. unfold developed. apply in_select. Qed.

Lemma in_other (gdf : Regions G) (r : region G) :
  In r (rows (other gdf)) <->
  In r (rows gdf) /\ F64.ge (housing_density r) (high_density_threshold gdf) = false.
Proof. unfold other. rewrite in_select, negb_true_iff. tauto. Qed.

(** C5.  The high-density rows and the remaining rows split the joined
    table: every row of the table is in one of the two, no row is in
    both, the two together are a rearrangement of the table (so a row
    is counted once), and both keep the rows as they are, in the CRS of
    the table. *)
Theorem developed_and_remainder_partition (gdf : Regions G) :
  (forall r, In r (rows gdf) <->
             In r (rows (developed gdf)) \/ In r (rows (other gdf)))
  /\ (forall r, ~ (In r (rows (developed gdf)) /\ In r (rows (other gdf))))
  /\ Permutation (rows (developed gdf) ++ rows (other gdf)) (rows gdf)
  /\ (List.length (rows (developed gdf)) + List.length (rows (other gdf))
      = List.length (rows gdf))%nat
  /\ crs (developed gdf) = crs gdf
  /\ crs (other gdf) = crs gdf.
Proof.
  assert (P : Permutation (rows (developed gdf) ++ rows (other gdf)) (rows gdf))
    by apply filter_split_perm.
  split; [|split; [|split; [exact P|split; [|split; reflexivity]]]].
  - intros r. split.
    + intros Hr.
      destruct (F64.ge (housing_density r) (high_density_threshold gdf)) eqn:E.
      * left. now apply in_developed.
      * right. now apply in_other.
    + intros [Hr | Hr]; [apply in_developed in Hr | apply in_other in Hr]; tauto.
  - intros r [Hd Ho]. apply in_developed in Hd. apply in_other in Ho.
    destruct Hd as [_ Hd], Ho as [_ Ho]. congruence.
  - apply Permutation_length in P. now rewrite length_app in P.
Qed.

(** C2.  The threshold of line 36 is the quantile of the density column
    at the literal 0.70, a row is high-density exactly when its density
    is greater than or equal to the threshold, a row whose density
    equals the threshold is included, and on the densities 1, 2, ...,
    100 the threshold is the double nearest to 70.3 and the
    high-density rows are those of densities 71 to 100.

    The quantile is the linear interpolation of the sorted column:
    NaN values are skipped; the values are rearranged in ascending
    order; for a column of 2 to 10000 numbers the result interpolates,
    by [lerp], between the sorted values at places [k] and [k + 1],
    where [k] is the integer part of the position [(n - 1) * 0.70]
    (that of the exact 7 (n - 1) / 10, or one less where the product is
    rounded down across an integer) and the weight is the fractional
    part of the position; a single finite value is its own quantile.
    The order of the column does not matter in the runs on 1 to 100
    reversed and shuffled, and the runs on three and on six numbers take
    the two branches of [lerp]. *)
Theorem threshold_is_quantile_070 :
  (forall gdf : Regions G,
      high_density_threshold gdf
      = Quantile.quantile (map (@housing_density G) (rows gdf)) F64.lit_0_70)
  /\ F64.lit_0_70 = F64.div (F64.of_Z 70) (F64.of_Z 100)
  /\ (forall (gdf : Regions G) r,
        In r (rows (developed gdf)) <->
        In r (rows gdf)
        /\ F64.ge (housing_density r) (high_density_threshold gdf) = true)
  /\ (forall (gdf : Regions G) r,
        In r (rows gdf) ->
        F64.isna (high_density_threshold gdf) = false ->
        housing_density r = high_density_threshold gdf ->
        In r (rows (developed gdf)))
  /\ Quantile.quantile (map (fun i => F64.of_Z (Z.of_nat i)) (seq 1 100)) F64.lit_0_70
     = F64.div (F64.of_Z 703) (F64.of_Z 10)
  /\ map (@housing_density _) (rows (f_gdf Example.hundred))
     = map (fun i => F64.of_Z (Z.of_nat i)) (seq 1 100)
  /\ f_high_density_threshold Example.hundred = F64.div (F64.of_Z 703) (F64.of_Z 10)
  /\ map (@housing_density _) (rows (f_developed Example.hundred))
     = map (fun i => F64.of_Z (Z.of_nat i)) (seq 71 30)
  /\ (forall col q,
        Quantile.quantile col q
        = Quantile.quantile (filter (fun x => negb (F64.isna x)) col) q)
  /\ (forall l,
        Forall defined l ->
        StronglySorted float_le (Quantile.sort l)
        /\ Permutation l (Quantile.sort l))
  /\ (forall values,
        Forall defined values ->
        2 <= Z.of_nat (List.length values) <= checked_rows ->
        let n := Z.of_nat (List.length values) in
        let h := position_070 n in
        let k := F64.floor h in
        Quantile.quantile values F64.lit_0_70
        = Quantile.lerp (nth (Z.to_nat k) (Quantile.sort values) F64.nan)
                        (nth (Z.to_nat (k + 1)) (Quantile.sort values) F64.nan)
                        (F64.sub h (F64.of_Z k))
        /\ h = F64.mul (F64.of_Z (n - 1)) fraction_070
        /\ (k = 7 * (n - 1) / 10 \/ k = 7 * (n - 1) / 10 - 1)
        /\ 0 <= k /\ k + 1 < n)
  /\ fraction_070 = F64.lit_0_70
  /\ checked_rows = 10000
  /\ (forall a b t,
        Quantile.lerp a b t
        = if F64.ge t (F64.div (F64.of_Z 1) (F64.of_Z 2))
          then F64.sub b (F64.mul (F64.sub b a) (F64.sub (F64.of_Z 1) t))
          else F64.add a (F64.mul (F64.sub b a) t))
  /\ (forall x,
        defined x -> is_infinite x = false ->
        Quantile.quantile [x] F64.lit_0_70 = x)
  /\ Quantile.quantile (map (fun i => F64.of_Z (101 - Z.of_nat i)) (seq 1 100))
                       F64.lit_0_70
     = F64.div (F64.of_Z 703) (F64.of_Z 10)
  /\ Quantile.quantile
       (map (fun i => F64.of_Z ((37 * Z.of_nat i) mod 101)) (seq 1 100))
       F64.lit_0_70
     = F64.div (F64.of_Z 703) (F64.of_Z 10)
  /\ Quantile.quantile [F64.of_Z 30; F64.of_Z 10] F64.lit_0_70 = F64.of_Z 24
  /\ Quantile.quantile [F64.of_Z 500; F64.nan; F64.of_Z 50; F64.of_Z 5] F64.lit_0_70
     = SFpred F64.prec F64.emax (F64.of_Z 230)
  /\ Quantile.quantile
       [F64.of_Z 500; F64.of_Z 5; F64.inf; F64.of_Z 300; F64.of_Z 20; F64.nan;
        F64.of_Z 50] F64.lit_0_70
     = F64.of_Z 400.
Proof.
  split; [reflexivity|]. split; [vm_compute; reflexivity|].
  split; [exact in_developed|]. split.
  { intros gdf r Hr Hna E. apply in_developed. split; [assumption|].
    rewrite E. now apply ge_refl. }
  do 4 (split; [vm_compute; reflexivity|]).
  split.
  { intros col q. unfold Quantile.quantile. now rewrite filter_twice. }
  split.
  { intros l Hl. split; [now apply sort_ascending | apply sort_rearranges]. }
  split.
  { intros values Hdef Hn. cbv zeta.
    assert (Hrange : position_in_range (Z.of_nat (List.length values)) = true).
    { pose proof position_in_range_checked as Hall.
      rewrite forallb_forall in Hall. apply Hall. apply in_seq.
      unfold checked_rows in *. lia. }
    split.
    - unfold Quantile.quantile. rewrite filter_all.
      + destruct values as [|v vs]; [simpl in Hn; lia|].
        now apply percentile_interpolates.
      + intros x Hx. rewrite Forall_forall in Hdef.
        rewrite (Hdef x Hx). reflexivity.
    - split; [reflexivity|].
      unfold position_in_range in Hrange. cbv zeta in Hrange.
      rewrite !andb_true_iff, orb_true_iff, !Z.eqb_eq, Z.leb_le, Z.ltb_lt in Hrange.
      tauto. }
  split; [vm_compute; reflexivity|]. split; [reflexivity|].
  split; [reflexivity|].
  split; [exact quantile_of_one_value|].
  repeat split; vm_compute; reflexivity.
Qed.

End Classifier.

Section ClassifierFrames.

Context {G : Type} `{Geometry G} `{Text}.

(** *** Rows downstream of the classification *)

Lemma developed_frames_derived (src : Z) (gdf dv : Regions G) :
  In dv [ f_developed (frames_of src gdf); f_developed_m (frames_of src gdf);
          f_buffered (frames_of src gdf); f_developed_f (frames_of src gdf) ] ->
  derived dv (developed gdf).
Proof.
  unfold frames_of, drop_missing_geometry; simpl.
  intros Hd.
  repeat (destruct Hd as [<- | Hd]; [auto 8 with frames_db|]); try contradiction.
Qed.

Lemma hot_zone_frames_derived (src : Z) (gdf hz : Regions G) :
  In hz [ f_hot_zones_m (frames_of src gdf); f_hot_zones_f (frames_of src gdf) ] ->
  derived hz (f_hot_zones_m (frames_of src gdf)).
Proof.
  unfold frames_of, drop_missing_geometry; simpl.
  intros Hd.
  repeat (destruct Hd as [<- | Hd]; [auto 8 with frames_db|]); try contradiction.
Qed.

Lemma developed_frames_above_threshold (src : Z) (gdf dv : Regions G) (r : region G) :
  In dv [ f_developed (frames_of src gdf); f_developed_m (frames_of src gdf);
          f_buffered (frames_of src gdf); f_developed_f (frames_of src gdf) ] ->
  In r (rows dv) ->
  F64.ge (housing_density r) (high_density_threshold gdf) = true
  /\ In (code r) (map (@code G) (rows (developed gdf))).
Proof.
  intros Hdv Hr.
  destruct (developed_frames_derived _ _ _ Hdv r Hr) as (r0 & Hr0 & E).
  apply attrs_eq in E. destruct E as (Ecode & _ & _ & Edens).
  split.
  - apply in_developed in Hr0. now rewrite Edens.
  - rewrite Ecode. now apply (in_map (@code G)).
Qed.

Lemma hot_zone_frames_in_band (src : Z) (gdf hz : Regions G) (r : region G) :
  In hz [ f_hot_zones_m (frames_of src gdf); f_hot_zones_f (frames_of src gdf) ] ->
  In r (rows hz) ->
  F64.ge (housing_density r) (F64.of_Z min_density) = true
  /\ F64.le (housing_density r) (F64.of_Z max_density) = true
  /\ ~ In (code r) (map (@code G) (rows (developed gdf))).
Proof.
  intros Hhz Hr.
  destruct (hot_zone_frames_derived _ _ _ Hhz r Hr) as (r0 & Hr0 & E).
  apply attrs_eq in E. destruct E as (Ecode & _ & _ & Edens).
  unfold frames_of in Hr0. cbn [f_hot_zones_m] in Hr0. apply in_hot_zones_m in Hr0.
  destruct Hr0 as (_ & _ & Hcode & Hlo & Hhi).
  rewrite Ecode, Edens. auto.
Qed.

(** C10.  A joined row whose density is NaN fails every threshold and
    band comparison; it is not in the high-density frame, it is in the
    remainder, and no row with a NaN density occurs in any frame
    derived from the high-density or the growth-ready rows.  A row
    without area has a NaN density. *)
Theorem undefined_density_is_other
    (shapefile : GeoDataFrame (boundary G cell)) (csv : list (census cell cell))
    (f : frames G) (r : region G) :
  aggregate_data shapefile csv = Ok f ->
  In r (rows (f_gdf f)) ->
  F64.isna (housing_density r) = true ->
  (forall t, F64.ge (housing_density r) t = false)
  /\ (forall lo hi,
        F64.ge (housing_density r) lo && F64.le (housing_density r) hi = false)
  /\ ~ In r (rows (f_developed f))
  /\ In r (rows (other (f_gdf f)))
  /\ (forall d r',
        In d [ f_developed f; f_developed_m f; f_buffered f; f_developed_f f;
               f_hot_zones_m f; f_hot_zones_f f ] ->
        In r' (rows d) -> F64.isna (housing_density r') = false)
  /\ (forall r0, In r0 (rows (f_gdf f)) -> F64.isna (area r0) = true ->
                 F64.isna (housing_density r0) = true).
Proof.
  intros Hrun Hr Hna. apply aggregate_data_inv in Hrun.
  destruct Hrun as (src & _ & ->).
  apply isna_nan in Hna.
  assert (Hge : forall t, F64.ge (housing_density r) t = false)
    by (intros t; rewrite Hna; apply ge_nan_l).
  split; [exact Hge|]. split; [intros lo hi; now rewrite Hge|].
  change (f_gdf (frames_of src (joined shapefile csv))) with (joined shapefile csv) in *.
  change (f_developed (frames_of src (joined shapefile csv)))
    with (developed (joined shapefile csv)).
  split; [|split; [|split]].
  - intros Hd. apply in_developed in Hd. destruct Hd as [_ Hd].
    rewrite Hge in Hd. discriminate.
  - apply in_other. auto.
  - intros d r' Hd Hr'.
    destruct (F64.isna (housing_density r')) eqn:E; [exfalso|reflexivity].
    apply isna_nan in E.
    simpl in Hd.
    destruct Hd as [Hd|[Hd|[Hd|[Hd|Hd]]]].
    1-4: assert (A : F64.ge (housing_density r')
                            (high_density_threshold (joined shapefile csv)) = true)
      by (apply (developed_frames_above_threshold src (joined shapefile csv) d r');
          [simpl; tauto | assumption]);
      rewrite E, ge_nan_l in A; discriminate.
    assert (A : F64.ge (housing_density r') (F64.of_Z min_density) = true)
      by (apply (hot_zone_frames_in_band src (joined shapefile csv) d r');
          [simpl; tauto | assumption]).
    rewrite E, ge_nan_l in A; discriminate.
  - intros r0 Hr0 Ha. apply in_joined in Hr0. destruct Hr0 as (Hq & _).
    apply isna_nan in Ha. now rewrite Hq, Ha, div_nan_r.
Qed.

Lemma div_pos_neg_zero (x : F64.float) :
  F64.lt F64.zero x = true -> F64.div x (S754_zero true) = F64.neg_inf.
Proof.
  destruct x as [s|s| |s m e]; simpl; try discriminate;
    destruct s; simpl; try discriminate; reflexivity.
Qed.

Lemma ge_neg_inf (t : F64.float) :
  F64.ge F64.neg_inf t = true <-> t = F64.neg_inf.
Proof.
  destruct t as [s|s| |s m e]; simpl; try (split; discriminate);
    destruct s; simpl; split; try discriminate; reflexivity.
Qed.

(** C7, as the script has it.  A run on a shapefile with a CRS returns
    whatever the areas are.  In it, a joined row whose area is a zero
    and whose count is positive has an infinite density with the sign
    of the zero, and it is in the high-density frame exactly when that
    density passes the comparison with the threshold: for area +0.0 the
    density is plus infinity and the row is high-density exactly when
    the threshold is not NaN; for area -0.0 the density is minus
    infinity and the row is high-density exactly when the threshold is
    minus infinity.  No growth-ready row has an infinite density, of
    either sign. *)
Theorem zero_area_region_has_infinite_density
    (shapefile : GeoDataFrame (boundary G cell)) (csv : list (census cell cell))
    (src : Z) :
  crs shapefile = Some src ->
  exists f,
    aggregate_data shapefile csv = Ok f
    /\ (forall r,
          In r (rows (f_gdf f)) ->
          is_zero (area r) = true ->
          F64.lt F64.zero (count r) = true ->
          is_infinite (housing_density r) = true
          /\ (In r (rows (f_developed f)) <->
              F64.ge (housing_density r) (f_high_density_threshold f) = true)
          /\ (area r = F64.zero ->
              housing_density r = F64.inf
              /\ (In r (rows (f_developed f)) <->
                  F64.isna (f_high_density_threshold f) = false))
          /\ (area r = S754_zero true ->
              housing_density r = F64.neg_inf
              /\ (In r (rows (f_developed f)) <->
                  f_high_density_threshold f = F64.neg_inf)))
    /\ (forall hz r',
          In hz [ f_hot_zones_m f; f_hot_zones_f f ] ->
          In r' (rows hz) -> is_infinite (housing_density r') = false).
Proof.
  intros Hcrs. exists (frames_of src (joined shapefile csv)).
  split; [|split].
  - rewrite aggregate_data_eq, classify_eq.
    change (crs (joined shapefile csv)) with (crs shapefile). now rewrite Hcrs.
  - intros r Hr Hz Hc. unfold frames_of in *. cbn [f_gdf] in Hr.
    cbn [f_developed f_high_density_threshold].
    assert (Hq : housing_density r = F64.div (count r) (area r))
      by (apply in_joined in Hr; tauto).
    assert (Hdev : In r (rows (developed (joined shapefile csv))) <->
                   F64.ge (housing_density r)
                          (high_density_threshold (joined shapefile csv)) = true)
      by (rewrite in_developed; tauto).
    split; [|split; [exact Hdev|split]].
    + rewrite Hq. destruct (area r) as [s| | |]; try discriminate.
      destruct s; [rewrite div_pos_neg_zero | rewrite div_pos_zero];
        auto.
    + intros Ha.
      assert (Hd : housing_density r = F64.inf)
        by (rewrite Hq, Ha; now apply div_pos_zero).
      split; [exact Hd|]. rewrite Hdev, Hd. split.
      * intros Hge.
        destruct (high_density_threshold (joined shapefile csv)); try reflexivity.
        discriminate.
      * apply ge_inf.
    + intros Ha.
      assert (Hd : housing_density r = F64.neg_inf)
        by (rewrite Hq, Ha; now apply div_pos_neg_zero).
      split; [exact Hd|]. rewrite Hdev, Hd. apply ge_neg_inf.
  - intros hz r' Hhz Hr'.
    destruct (hot_zone_frames_in_band src (joined shapefile csv) hz r' Hhz Hr')
      as (Hlo & Hhi & _).
    destruct (housing_density r') as [s|s| |s m e]; try reflexivity.
    destruct s; [vm_compute in Hlo | vm_compute in Hhi]; discriminate.
Qed.

End ClassifierFrames.

Lemma undefined_density_is_other_holds :
  aggregate_data Example.shapefile Example.csv = Ok Example.out
  /\ In (Example.row 4 (f_gdf Example.out)) (rows (f_gdf Example.out))
  /\ F64.isna (housing_density (Example.row 4 (f_gdf Example.out))) = true
  /\ ~ In (Example.row 4 (f_gdf Example.out)) (rows (f_developed Example.out))
  /\ In (Example.row 4 (f_gdf Example.out)) (rows (other (f_gdf Example.out))).
Proof.
  assert (Hr : In (Example.row 4 (f_gdf Example.out)) (rows (f_gdf Example.out)))
    by (vm_compute; tauto).
  assert (Hna : F64.isna (housing_density (Example.row 4 (f_gdf Example.out))) = true)
    by reflexivity.
  split; [exact example_run|]. split; [exact Hr|]. split; [exact Hna|].
  pose proof (undefined_density_is_other _ _ _ _ example_run Hr Hna) as T.
  split; [exact (proj1 (proj2 (proj2 T))) | exact (proj1 (proj2 (proj2 (proj2 T))))].
Defined.

Lemma zero_area_region_has_infinite_density_holds :
  crs Example.shapefile = Some 7844
  /\ exists f,
      aggregate_data Example.shapefile Example.csv = Ok f
      /\ (forall r,
            In r (rows (f_gdf f)) ->
            is_zero (area r) = true ->
            F64.lt F64.zero (count r) = true ->
            is_infinite (housing_density r) = true
            /\ (In r (rows (f_developed f)) <->
                F64.ge (housing_density r) (f_high_density_threshold f) = true)
            /\ (area r = F64.zero ->
                housing_density r = F64.inf
                /\ (In r (rows (f_developed f)) <->
                    F64.isna (f_high_density_threshold f) = false))
            /\ (area r = S754_zero true ->
                housing_density r = F64.neg_inf
                /\ (In r (rows (f_developed f)) <->
                    f_high_density_threshold f = F64.neg_inf)))
      /\ (forall hz r',
            In hz [ f_hot_zones_m f; f_hot_zones_f f ] ->
            In r' (rows hz) -> is_infinite (housing_density r') = false).
Proof.
  split; [reflexivity|].
  exact (zero_area_region_has_infinite_density
           Example.shapefile Example.csv 7844 eq_refl).
Defined.

(** C7, as the claim states it, fails on the worked example: region 104
    has area zero and count 7, its density is plus infinity, the
    threshold is 400, and the region is in the high-density frame. *)
Lemma zero_area_region_labelled_high_density :
  aggregate_data Example.shapefile Example.csv = Ok Example.out
  /\ f_high_density_threshold Example.out = F64.of_Z 400
  /\ In (Example.row 3 (f_gdf Example.out)) (rows (f_gdf Example.out))
  /\ code (Example.row 3 (f_gdf Example.out)) = str_lit "104"
  /\ area (Example.row 3 (f_gdf Example.out)) = F64.zero
  /\ count (Example.row 3 (f_gdf Example.out)) = F64.of_Z 7
  /\ housing_density (Example.row 3 (f_gdf Example.out)) = F64.inf
  /\ F64.ge (housing_density (Example.row 3 (f_gdf Example.out)))
            (f_high_density_threshold Example.out) = true
  /\ In (Example.row 3 (f_gdf Example.out)) (rows (f_developed Example.out)).
Proof.
  split; [exact example_run|].
  repeat split; try reflexivity; vm_compute; tauto.
Qed.

(** ** Growth-zone resolver *)

Section Resolver.

Context {G : Type} `{Geometry G} `{Text}.

(** C1.  A row of the growth-ready frame has a density in the closed
    band from [min_density] = 10 to [max_density] = 200 (the two bounds
    themselves pass the comparisons), and its geometry is present and
    intersects the union of the buffers drawn at [buffer_distance]
    around the geometries of the high-density rows. *)
Theorem hot_zones_in_band_and_near_buffer
    (gdf : Regions G) (f : frames G) (r : region G) :
  classify gdf = Ok f ->
  In r (rows (f_hot_zones_m f)) ->
  F64.ge (housing_density r) (F64.of_Z min_density) = true
  /\ F64.le (housing_density r) (F64.of_Z max_density) = true
  /\ min_density = 10 /\ max_density = 200
  /\ exists g,
      geom r = Some g
      /\ intersects g
           (unary_union (map (fun h => buffer h buffer_distance)
                             (geometries (f_developed_m f)))) = true.
Proof.
  intros Hrun Hr. apply classify_inv in Hrun. destruct Hrun as (src & _ & ->).
  unfold frames_of in Hr |- *. cbn [f_hot_zones_m f_developed_m] in Hr |- *.
  apply in_hot_zones_m in Hr. destruct Hr as (_ & Hint & _ & Hlo & Hhi).
  repeat (split; [assumption || reflexivity|]).
  unfold geom_intersects, frame_unary_union in Hint.
  rewrite geometries_buffered in Hint.
  destruct (geom r) as [g|]; [|discriminate]. now exists g.
Qed.

(** C4.  No growth-ready row carries the identifier of a high-density
    row, in the projected frames and in the exported ones. *)
Theorem hot_zones_exclude_developed_codes
    (gdf : Regions G) (f : frames G) (hz dv : Regions G) (r d : region G) :
  classify gdf = Ok f ->
  In hz [ f_hot_zones_m f; f_hot_zones_f f ] ->
  In dv [ f_developed f; f_developed_m f; f_buffered f; f_developed_f f ] ->
  In r (rows hz) ->
  In d (rows dv) ->
  code r <> code d.
Proof.
  intros Hrun Hhz Hdv Hr Hd. apply classify_inv in Hrun.
  destruct Hrun as (src & _ & ->).
  destruct (hot_zone_frames_in_band src gdf hz r Hhz Hr) as (_ & _ & Hnot).
  destruct (developed_frames_above_threshold src gdf dv d Hdv Hd) as (_ & Hin).
  intros E. apply Hnot. now rewrite E.
Qed.

Lemma in_add_layer (st : style) (tip : region G -> option str) (d : Regions G)
    (l : geojson G) :
  In l (add_layer st tip d) <->
  exists r, In r (rows d) /\ geom r = Some (gj_geometry l)
            /\ gj_style l = st /\ gj_tooltip l = tip r.
Proof.
  unfold add_layer. rewrite in_flat_map. split.
  - intros (r & Hr & Hl). exists r. destruct (geom r) as [g|]; [|destruct Hl].
    destruct Hl as [<-|[]]. simpl. auto.
  - intros (r & Hr & Hg & Hs & Ht). exists r. split; [assumption|].
    rewrite Hg. left. destruct l; simpl in *. now subst.
Qed.


End Resolver.

Lemma hot_zones_in_band_and_near_buffer_holds :
  classify (f_gdf Example.out) = Ok Example.out
  /\ In (Example.row 0 (f_hot_zones_m Example.out)) (rows (f_hot_zones_m Example.out))
  /\ code (Example.row 0 (f_hot_zones_m Example.out)) = str_lit "102"
  /\ F64.ge (housing_density (Example.row 0 (f_hot_zones_m Example.out)))
            (F64.of_Z 10) = true
  /\ F64.le (housing_density (Example.row 0 (f_hot_zones_m Example.out)))
            (F64.of_Z 200) = true.
Proof.
  assert (Hrun : classify (f_gdf Example.out) = Ok Example.out)
    by (vm_compute; reflexivity).
  assert (Hr : In (Example.row 0 (f_hot_zones_m Example.out))
                  (rows (f_hot_zones_m Example.out)))
    by (vm_compute; tauto).
  split; [exact Hrun|]. split; [exact Hr|]. split; [reflexivity|].
  pose proof (hot_zones_in_band_and_near_buffer _ _ _ Hrun Hr) as T.
  split; [exact (proj1 T) | exact (proj1 (proj2 T))].
Defined.

Lemma hot_zones_exclude_developed_codes_holds :
  classify (f_gdf Example.out) = Ok Example.out
  /\ In (Example.row 0 (f_hot_zones_m Example.out)) (rows (f_hot_zones_m Example.out))
  /\ In (Example.row 1 (f_developed Example.out)) (rows (f_developed Example.out))
  /\ code (Example.row 0 (f_hot_zones_m Example.out))
     <> code (Example.row 1 (f_developed Example.out)).
Proof.
  assert (Hrun : classify (f_gdf Example.out) = Ok Example.out)
    by (vm_compute; reflexivity).
  assert (Hr : In (Example.row 0 (f_hot_zones_m Example.out))
                  (rows (f_hot_zones_m Example.out)))
    by (vm_compute; tauto).
  assert (Hd : In (Example.row 1 (f_developed Example.out))
                  (rows (f_developed Example.out)))
    by (vm_compute; tauto).
  split; [exact Hrun|]. split; [exact Hr|]. split; [exact Hd|].
  apply (hot_zones_exclude_developed_codes
           (f_gdf Example.out) Example.out
           (f_hot_zones_m Example.out) (f_developed Example.out)).
  - exact Hrun.
  - left; reflexivity.
  - left; reflexivity.
  - exact Hr.
  - exact Hd.
Defined.



(** ** Key normalisation (lines 16 and 17) *)

Section Strings.

Lemma lstrip_decompose (s : str) :
  exists l, s = l ++ lstrip s /\ all_spaces l = true
            /\ head_is_space (lstrip s) = false.
Proof.
  induction s as [|c s IH]; simpl.
  - exists []. auto.
  - destruct (is_space c) eqn:E.
    + destruct IH as (l & Hs & Hl & Hh). exists (c :: l). simpl.
      rewrite E. repeat split; auto. now rewrite <- Hs.
    + exists []. simpl. auto.
Qed.

Lemma rstrip_decompose (s : str) :
  exists r, s = rstrip s ++ r /\ all_spaces r = true
            /\ last_is_space (rstrip s) = false.
Proof.
  induction s as [|c s IH]; simpl.
  - exists []. auto.
  - destruct IH as (r & Hs & Hr & Hlast).
    destruct (rstrip s) as [|d t] eqn:E.
    + simpl in Hs. subst r. destruct (is_space c) eqn:Ec.
      * exists (c :: s). simpl. rewrite Ec. auto.
      * exists s. simpl. auto.
    + exists r. simpl. repeat split; auto. f_equal. exact Hs.
Qed.

Lemma last_is_space_lstrip (u : str) :
  last_is_space u = false -> last_is_space (lstrip u) = false.
Proof.
  induction u as [|c u IH]; simpl; [auto|].
  destruct (is_space c) eqn:E.
  - destruct u as [|d u]; [congruence|]. exact IH.
  - simpl. rewrite E. auto.
Qed.

Lemma lstrip_spaces (l s : str) :
  all_spaces l = true -> lstrip (l ++ s) = lstrip s.
Proof.
  induction l as [|c l IH]; simpl; [reflexivity|].
  intros Hl. apply andb_true_iff in Hl. destruct Hl as [Hc Hl].
  rewrite Hc. auto.
Qed.

Lemma lstrip_id (s : str) : head_is_space s = false -> lstrip s = s.
Proof. destruct s as [|c s]; simpl; [reflexivity|]. now intros ->. Qed.

Lemma rstrip_spaces (r : str) : all_spaces r = true -> rstrip r = [].
Proof.
  induction r as [|c r IH]; simpl; [reflexivity|].
  intros Hr. apply andb_true_iff in Hr. destruct Hr as [Hc Hr].
  now rewrite (IH Hr), Hc.
Qed.

Lemma rstrip_app_spaces (u r : str) :
  all_spaces r = true -> rstrip (u ++ r) = rstrip u.
Proof.
  intros Hr. induction u as [|c u IH]; simpl.
  - now apply rstrip_spaces.
  - now rewrite IH.
Qed.

Lemma rstrip_id (u : str) : last_is_space u = false -> rstrip u = u.
Proof.
  induction u as [|c u IH]; simpl; [reflexivity|].
  destruct u as [|d u].
  - simpl. now intros ->.
  - intros Hl. now rewrite (IH Hl).
Qed.

Lemma last_is_space_app (l t : str) :
  t <> [] -> last_is_space (l ++ t) = last_is_space t.
Proof.
  intros Ht. induction l as [|c l IH]; simpl; [reflexivity|].
  destruct (l ++ t) as [|d u] eqn:E; [|exact IH].
  destruct l; simpl in E; [contradiction|discriminate].
Qed.

(** X1.  [strip] removes a run of whitespace at each end and nothing
    else: the argument is the result between two runs of whitespace,
    the result neither starts nor ends with whitespace, and stripping
    again changes nothing.  Whitespace is what [str.isspace] accepts,
    the no-break space, NEL, the em space and the ideographic space
    included. *)
Theorem strip_removes_surrounding_whitespace (s : str) :
  (exists l r, s = l ++ strip s ++ r
               /\ all_spaces l = true /\ all_spaces r = true)
  /\ trimmed (strip s) = true
  /\ strip (strip s) = strip s
  /\ all_spaces [160; 133; 8195; 12288; 32; 9]%N = true.
Proof.
  unfold strip, trimmed.
  destruct (rstrip_decompose s) as (r & Hs & Hr & Hlast).
  destruct (lstrip_decompose (rstrip s)) as (l & Hu & Hl & Hhead).
  pose proof (last_is_space_lstrip _ Hlast) as Hlast'.
  split; [|split; [|split; [|reflexivity]]].
  - exists l, r. repeat split; auto.
    rewrite app_assoc, <- Hu. exact Hs.
  - now rewrite Hhead, Hlast'.
  - rewrite (rstrip_id _ Hlast'). now apply lstrip_id.
Qed.

(** X2.  A key that neither starts nor ends with whitespace is what
    [strip] returns for it wrapped in any whitespace. *)
Theorem strip_of_padded_key (l t r : str) :
  all_spaces l = true ->
  all_spaces r = true ->
  trimmed t = true ->
  strip (l ++ t ++ r) = t.
Proof.
  unfold strip, trimmed. intros Hl Hr Ht.
  apply andb_true_iff in Ht. destruct Ht as [Hh Hlast].
  apply negb_true_iff in Hh. apply negb_true_iff in Hlast.
  rewrite app_assoc, rstrip_app_spaces by assumption.
  destruct t as [|c t].
  - rewrite app_nil_r, rstrip_spaces by assumption. reflexivity.
  - rewrite rstrip_id.
    + rewrite lstrip_spaces by assumption. now apply lstrip_id.
    + rewrite last_is_space_app; [assumption|discriminate].
Qed.

End Strings.

(** [strip] on a key padded with an ideographic space and a no-break
    space in front, a tab and an em space behind. *)
Lemma strip_of_padded_key_holds :
  all_spaces [12288; 160]%N = true
  /\ all_spaces [9; 8195]%N = true
  /\ trimmed (str_lit "SA2 101") = true
  /\ strip ([12288; 160] ++ str_lit "SA2 101" ++ [9; 8195])%N = str_lit "SA2 101".
Proof.
  split; [reflexivity|]. split; [reflexivity|]. split; [reflexivity|].
  apply (strip_of_padded_key [12288; 160]%N (str_lit "SA2 101") [9; 8195]%N);
    reflexivity.
Defined.

Section IntegerKeys.

Context `{Text}.

Lemma digits_are_plain (d : Decimal.uint) :
  no_space (str_lit (NilEmpty.string_of_uint d)) = true
  /\ str_ascii (str_lit (NilEmpty.string_of_uint d))
     = Some (NilEmpty.string_of_uint d).
Proof.
  induction d as [|d [IH1 IH2]|d [IH1 IH2]|d [IH1 IH2]|d [IH1 IH2]|d [IH1 IH2]
                  |d [IH1 IH2]|d [IH1 IH2]|d [IH1 IH2]|d [IH1 IH2]|d [IH1 IH2]];
    [split; reflexivity|..];
    (split;
     [change (no_space (str_lit (NilEmpty.string_of_uint d)) = true); exact IH1
     |cbn [NilEmpty.string_of_uint str_lit list_ascii_of_string map str_ascii];
      fold (str_lit (NilEmpty.string_of_uint d)); rewrite IH2; reflexivity]).
Qed.

Lemma str_of_int_plain (z : Z) :
  no_space (str_of_int z) = true
  /\ str_ascii (str_of_int z) = Some (NilZero.string_of_int (Z.to_int z)).
Proof.
  unfold str_of_int, NilZero.string_of_int, NilZero.string_of_uint.
  destruct (Z.to_int z) as [d|d].
  - destruct d; try (split; reflexivity); apply digits_are_plain.
  - assert (P : forall u,
               no_space (str_lit (NilEmpty.string_of_uint u)) = true
               /\ str_ascii (str_lit (NilEmpty.string_of_uint u))
                  = Some (NilEmpty.string_of_uint u)
               -> no_space (str_lit (String "-" (NilEmpty.string_of_uint u))) = true
                  /\ str_ascii (str_lit (String "-" (NilEmpty.string_of_uint u)))
                     = Some (String "-" (NilEmpty.string_of_uint u))).
    { intros u [P1 P2]. split; [exact P1|].
      cbn [str_lit list_ascii_of_string map str_ascii].
      fold (str_lit (NilEmpty.string_of_uint u)). rewrite P2. reflexivity. }
    destruct d; try (split; reflexivity); apply P, digits_are_plain.
Qed.

Lemma no_space_last (s : str) : no_space s = true -> last_is_space s = false.
Proof.
  induction s as [|c s IH]; simpl; [reflexivity|].
  intros Hs. apply andb_true_iff in Hs. destruct Hs as [Hc Hs].
  apply negb_true_iff in Hc. destruct s; auto.
Qed.

Lemma no_space_strip (s : str) : no_space s = true -> strip s = s.
Proof.
  intros Hs. unfold strip. rewrite (rstrip_id _ (no_space_last _ Hs)).
  apply lstrip_id. destruct s as [|c s]; simpl in *; [reflexivity|].
  apply andb_true_iff in Hs. destruct Hs as [Hc _]. now apply negb_true_iff.
Qed.

Lemma int_of_str_of_int (z : Z) : int_of_str (str_of_int z) = Some z.
Proof.
  unfold int_of_str. rewrite (proj2 (str_of_int_plain z)).
  rewrite NilZero.isi.
  - simpl. now rewrite DecimalZ.of_to.
  - destruct z; simpl; try discriminate.
    intros E. injection E. apply Unsigned.to_uint_nonnil.
  - destruct z; simpl; try discriminate.
    intros E. injection E. apply Unsigned.to_uint_nonnil.
Qed.

(** X3.  An integer code is normalised to its decimal writing, which
    [strip] leaves alone; reading that writing gives the code back, so
    two integer codes get the same key only when they are equal. *)
Theorem integer_codes_keep_their_identity (a b : Z) :
  normalised_key (CInt a) = str_of_int a
  /\ int_of_str (normalised_key (CInt a)) = Some a
  /\ (normalised_key (CInt a) = normalised_key (CInt b) <-> a = b).
Proof.
  assert (N : forall z, normalised_key (CInt z) = str_of_int z).
  { intros z. unfold normalised_key; simpl.
    apply no_space_strip, str_of_int_plain. }
  split; [apply N|]. split.
  - rewrite N. apply int_of_str_of_int.
  - split; [|now intros ->]. rewrite !N. intros E.
    pose proof (int_of_str_of_int a) as Ha. rewrite E, int_of_str_of_int in Ha.
    congruence.
Qed.

End IntegerKeys.

(** ** Counts and densities (lines 20 to 32) *)

Section Division.

Lemma shr_1_nonneg (mrs : shr_record) : 0 <= shr_m mrs -> 0 <= shr_m (shr_1 mrs).
Proof.
  destruct mrs as [m r s]. destruct m as [|p|p]; simpl; intros Hm; try lia;
    destruct p; simpl; lia.
Qed.

Lemma iter_pos_shr_1_nonneg (p : positive) (mrs : shr_record) :
  0 <= shr_m mrs -> 0 <= shr_m (iter_pos shr_1 p mrs).
Proof.
  revert mrs. induction p as [p IH|p IH|]; simpl; intros mrs Hm.
  - apply IH, IH. now apply shr_1_nonneg.
  - now apply IH, IH.
  - now apply shr_1_nonneg.
Qed.

Lemma shr_fexp_nonneg (m e : Z) (l : location) :
  0 <= m -> 0 <= shr_m (fst (shr_fexp F64.prec F64.emax m e l)).
Proof.
  intros Hm. unfold shr_fexp, shr.
  assert (H0 : 0 <= shr_m (shr_record_of_loc m l))
    by (destruct l as [|[]]; simpl; exact Hm).
  destruct (fexp F64.prec F64.emax (Zdigits2 m + e) - e); simpl; auto.
  now apply iter_pos_shr_1_nonneg.
Qed.

Lemma round_nearest_even_nonneg (m : Z) (l : location) :
  0 <= m -> 0 <= round_nearest_even m l.
Proof.
  intros Hm. destruct l as [|[]]; simpl; try lia. destruct (Z.even m); lia.
Qed.

Lemma binary_round_aux_not_nan (sx : bool) (mx ex : Z) (lx : location) :
  0 <= mx -> F64.isna (binary_round_aux F64.prec F64.emax sx mx ex lx) = false.
Proof.
  intros Hm. unfold binary_round_aux.
  pose proof (shr_fexp_nonneg mx ex lx Hm) as H1.
  destruct (shr_fexp F64.prec F64.emax mx ex lx) as [mrs' e']. simpl in H1.
  pose proof (shr_fexp_nonneg _ e' loc_Exact
                (round_nearest_even_nonneg _ (loc_of_shr_record mrs') H1)) as H2.
  destruct (shr_fexp F64.prec F64.emax
              (round_nearest_even (shr_m mrs') (loc_of_shr_record mrs')) e' loc_Exact)
    as [mrs'' e'']. simpl in H2.
  destruct (shr_m mrs'') as [|p|p]; [reflexivity| |lia].
  destruct (_ <=? _); reflexivity.
Qed.

(** An integer is never converted to NaN. *)
Lemma of_Z_not_nan (z : Z) : F64.isna (F64.of_Z z) = false.
Proof.
  unfold F64.of_Z, binary_normalize, binary_round.
  destruct z as [|p|p]; [reflexivity| |];
    destruct (shl_align _ _ _) as [mz ez]; now apply binary_round_aux_not_nan.
Qed.

Lemma div_finite_not_nan (sx sy : bool) (mx my : positive) (ex ey : Z) :
  F64.isna (F64.div (S754_finite sx mx ex) (S754_finite sy my ey)) = false.
Proof.
  unfold F64.div, SFdiv, SFdiv_core_binary.
  set (m' := match _ with Z0 => Zpos mx | Zpos _ => _ | Zneg _ => 0 end).
  assert (Hm' : 0 <= m').
  { subst m'. destruct (_ - _) as [|p|p]; try lia. apply Z.shiftl_nonneg. lia. }
  pose proof (Z_div_mod m' (Zpos my) eq_refl) as Hdiv.
  destruct (Z.div_eucl m' (Zpos my)) as [q r].
  apply binary_round_aux_not_nan. nia.
Qed.

(** When a quotient is NaN. *)
Lemma div_isna (x y : F64.float) :
  F64.isna (F64.div x y)
  = F64.isna x || F64.isna y
    || (is_zero x && is_zero y) || (is_infinite x && is_infinite y).
Proof.
  destruct x as [sx|sx| |sx mx ex], y as [sy|sy| |sy my ey];
    try reflexivity.
  rewrite div_finite_not_nan. reflexivity.
Qed.

End Division.

Section Counts.

Context {G : Type} `{Geometry G} `{Text}.

(** X4.  In every frame of a run the count is never NaN, and the
    density is NaN exactly when the area is NaN, or count and area are
    both zero, or count and area are both infinite. *)
Theorem density_undefined_exactly_when
    (shapefile : GeoDataFrame (boundary G cell)) (csv : list (census cell cell))
    (f : frames G) (d : Regions G) (r : region G) :
  aggregate_data shapefile csv = Ok f ->
  In d (all_frames f) ->
  In r (rows d) ->
  F64.isna (count r) = false
  /\ F64.isna (housing_density r)
     = F64.isna (area r)
       || (is_zero (count r) && is_zero (area r))
       || (is_infinite (count r) && is_infinite (area r)).
Proof.
  intros Hrun Hd Hr. apply aggregate_data_inv in Hrun.
  destruct Hrun as (src & _ & ->).
  pose proof (frames_derived Hd) as Hder.
  destruct (Hder r Hr) as (r0 & Hr0 & E).
  apply attrs_eq in E. destruct E as (_ & Earea & Ecount & Edens).
  apply in_joined in Hr0.
  destruct Hr0 as (Hq & _ & _ & (h & _ & _ & Hnum & Hv)).
  assert (Hc : F64.isna (count r0) = false).
  { unfold non_numeric_or_missing in Hnum. now rewrite Hv in Hnum. }
  rewrite Edens, Earea, Ecount, Hq, div_isna, Hc. auto.
Qed.

(** X5.  A census row with an integer count is never dropped: whenever
    its normalised key is that of a boundary row, the joined table has a
    row with that key, the area and geometry of the boundary row, the
    integer as count and their quotient as density. *)
Theorem integer_counts_are_kept
    (shapefile : GeoDataFrame (boundary G cell)) (csv : list (census cell cell))
    (b : boundary G cell) (h : census cell cell) (z : Z) :
  In b (rows shapefile) ->
  In h csv ->
  Total_Total h = CInt z ->
  normalised_key (SA2_CODE21 b) = normalised_key (SA2_CODE_2021 h) ->
  exists gdf r,
    load_and_join shapefile csv = Ok gdf
    /\ In r (rows gdf)
    /\ code r = normalised_key (SA2_CODE_2021 h)
    /\ area r = AREASQKM21 b
    /\ geom r = geometry b
    /\ count r = F64.of_Z z
    /\ housing_density r = F64.div (F64.of_Z z) (AREASQKM21 b).
Proof.
  intros Hb Hh Hz Hk.
  exists (joined shapefile csv).
  exists {| shp := {| SA2_CODE21 := normalised_key (SA2_CODE_2021 h);
                      AREASQKM21 := AREASQKM21 b;
                      geometry := geometry b |};
            cen := {| SA2_CODE_2021 := normalised_key (SA2_CODE_2021 h);
                      Total_Total := F64.of_Z z |};
            housing_density := F64.div (F64.of_Z z) (AREASQKM21 b) |}.
  split; [apply load_and_join_eq|].
  split; [|repeat split].
  apply in_joined. unfold count, area, code, geom; simpl.
  split; [reflexivity|]. split; [reflexivity|]. split.
  - exists b. auto.
  - exists h. rewrite Hz. unfold non_numeric_or_missing; simpl.
    repeat split; auto. apply of_Z_not_nan.
Qed.

End Counts.

Lemma density_undefined_exactly_when_holds :
  aggregate_data Example.shapefile Example.csv = Ok Example.out
  /\ In (f_gdf Example.out) (all_frames Example.out)
  /\ In (Example.row 3 (f_gdf Example.out)) (rows (f_gdf Example.out))
  /\ F64.isna (count (Example.row 3 (f_gdf Example.out))) = false
  /\ F64.isna (housing_density (Example.row 3 (f_gdf Example.out))) = false.
Proof.
  assert (Hd : In (f_gdf Example.out) (all_frames Example.out))
    by (vm_compute; tauto).
  assert (Hr : In (Example.row 3 (f_gdf Example.out)) (rows (f_gdf Example.out)))
    by (vm_compute; tauto).
  split; [exact example_run|]. split; [exact Hd|]. split; [exact Hr|].
  pose proof (density_undefined_exactly_when _ _ _ _ _ example_run Hd Hr) as T.
  split; [exact (proj1 T) | exact (proj2 T)].
Defined.

Lemma integer_counts_are_kept_holds :
  exists gdf r,
    load_and_join Example.shapefile Example.csv = Ok gdf
    /\ In r (rows gdf)
    /\ code r = str_lit "101"
    /\ area r = F64.of_Z 10
    /\ geom r = Some [(0, 1000)]
    /\ count r = F64.of_Z 5000
    /\ housing_density r = F64.div (F64.of_Z 5000) (F64.of_Z 10).
Proof.
  apply (integer_counts_are_kept Example.shapefile Example.csv
           (Example.boundary_row "101" (F64.of_Z 10) 0 1000)
           (Example.census_row 101 (CInt 5000)) 5000).
  - simpl; tauto.
  - simpl; tauto.
  - reflexivity.
  - reflexivity.
Defined.

(** ** The join (lines 24 to 29) *)

Section Join.

Context {G : Type}.

Lemma matching_rows_with_unique_keys (right : list (census str F64.float))
    (k : str) :
  NoDup (map (@SA2_CODE_2021 str F64.float) right) ->
  (filter (fun r => str_eqb k (SA2_CODE_2021 r)) right = []
   /\ existsb (str_eqb k) (map (@SA2_CODE_2021 str F64.float) right) = false)
  \/ (exists r, filter (fun r => str_eqb k (SA2_CODE_2021 r)) right = [r]
                /\ existsb (str_eqb k)
                     (map (@SA2_CODE_2021 str F64.float) right) = true).
Proof.
  induction right as [|r t IH]; simpl; intros Hnd; [left; auto|].
  inversion Hnd as [|x l Hnot Hnd']; subst.
  destruct (str_eqb k (SA2_CODE_2021 r)) eqn:E; simpl.
  - right. exists r. split; [|reflexivity]. f_equal.
    apply str_eqb_eq in E. subst k.
    destruct (IH Hnd') as [[Hemp _] | (r0 & Hone & Hex)]; [exact Hemp|].
    exfalso. apply Hnot. apply existsb_exists in Hex.
    destruct Hex as (x & Hx & Ex). apply str_eqb_eq in Ex. now subst x.
  - exact (IH Hnd').
Qed.

Lemma unique_keys_survive_selection (A K : Type) (key : A -> K) (table : list A)
    (keep : A -> bool) (Hunique : NoDup (map key table)) :
  NoDup (map key (filter keep table)).
Proof.
  induction table as [|a table IH]; simpl in *; [constructor|].
  apply NoDup_cons_iff in Hunique. destruct Hunique as [Hfresh Hrest].
  destruct (keep a); simpl; [|exact (IH Hrest)].
  apply NoDup_cons; [|exact (IH Hrest)].
  intros Hin. apply Hfresh.
  apply in_map_iff in Hin. destruct Hin as (y & Ey & Hy).
  apply filter_In in Hy. apply in_map_iff. exists y. tauto.
Qed.

(** X6.  When no key occurs twice in the census table, the boundary
    rows of the merged table are the boundary rows that have a census
    row, once each and in the order of the boundary table; so the merge
    adds no row, and keys that are unique in the boundary table stay
    unique. *)
Theorem merge_with_unique_census_keys
    (left : list (boundary G str)) (right : list (census str F64.float)) :
  NoDup (map (@SA2_CODE_2021 str F64.float) right) ->
  map fst (merge left right)
  = filter (fun l => isin (SA2_CODE21 l)
                          (map (@SA2_CODE_2021 str F64.float) right)) left
  /\ (List.length (merge left right) <= List.length left)%nat
  /\ (NoDup (map (@SA2_CODE21 G str) left) ->
      NoDup (map (fun lr => SA2_CODE21 (fst lr)) (merge left right))).
Proof.
  intros Hnd.
  assert (E : map fst (merge left right)
              = filter (fun l => isin (SA2_CODE21 l)
                                      (map (@SA2_CODE_2021 str F64.float) right))
                       left).
  { unfold merge, isin. induction left as [|l t IH]; simpl; [reflexivity|].
    rewrite map_app, IH, map_map; simpl.
    destruct (matching_rows_with_unique_keys right (SA2_CODE21 l) Hnd)
      as [[-> ->] | (r & -> & ->)]; reflexivity. }
  split; [exact E|]. split.
  - rewrite <- (length_map fst), E. apply filter_length_le.
  - intros Hl. rewrite <- (map_map fst (@SA2_CODE21 G str)), E.
    now apply unique_keys_survive_selection.
Qed.

End Join.

Lemma example_census_keys_unique :
  NoDup (map (@SA2_CODE_2021 str F64.float)
             (cleaned (strip_SA2_CODE_2021 Example.csv))).
Proof.
  vm_compute.
  repeat (constructor;
          [simpl; intros Hin;
           repeat (destruct Hin as [Hin|Hin]; [discriminate|]); exact Hin|]).
  constructor.
Qed.

Lemma merge_with_unique_census_keys_holds :
  NoDup (map (@SA2_CODE_2021 str F64.float)
             (cleaned (strip_SA2_CODE_2021 Example.csv)))
  /\ (List.length (merge (rows (strip_SA2_CODE21 Example.shapefile))
                         (cleaned (strip_SA2_CODE_2021 Example.csv)))
      <= List.length (rows (strip_SA2_CODE21 Example.shapefile)))%nat.
Proof.
  split; [exact example_census_keys_unique|].
  exact (proj1 (proj2 (merge_with_unique_census_keys
                         (rows (strip_SA2_CODE21 Example.shapefile))
                         (cleaned (strip_SA2_CODE_2021 Example.csv))
                         example_census_keys_unique))).
Defined.

(** ** Frames of a run (lines 36 to 87) *)

Section Frames.

Context {G : Type} `{Geometry G} `{Text}.

Lemma codes_reproject (src dst : Z) (d : Regions G) :
  map (@code G) (rows (reproject src dst d)) = map (@code G) (rows d).
Proof. unfold reproject; simpl. rewrite map_map. reflexivity. Qed.

Lemma codes_buffered (d : Regions G) :
  map (@code G) (rows (buffered d)) = map (@code G) (rows d).
Proof. unfold buffered; simpl. rewrite map_map. reflexivity. Qed.

Lemma unique_codes_select (mask : region G -> bool) (d : Regions G) :
  NoDup (map (@code G) (rows d)) -> NoDup (map (@code G) (rows (select mask d))).
Proof. unfold select; simpl. apply unique_keys_survive_selection. Qed.

Lemma unique_codes_reproject (src dst : Z) (d : Regions G) :
  NoDup (map (@code G) (rows d)) ->
  NoDup (map (@code G) (rows (reproject src dst d))).
Proof. now rewrite codes_reproject. Qed.

Lemma unique_codes_buffered (d : Regions G) :
  NoDup (map (@code G) (rows d)) -> NoDup (map (@code G) (rows (buffered d))).
Proof. now rewrite codes_buffered. Qed.

Lemma unique_codes_hot_zones_m (gdf_m buf dev : Regions G) :
  NoDup (map (@code G) (rows gdf_m)) ->
  NoDup (map (@code G) (rows (hot_zones_m gdf_m buf dev))).
Proof. intros Hd. unfold hot_zones_m. now repeat apply unique_codes_select. Qed.

Lemma cleaned_keys (csv : list (census cell cell)) :
  map (@SA2_CODE_2021 str F64.float) (cleaned (strip_SA2_CODE_2021 csv))
  = map (fun h => normalised_key (SA2_CODE_2021 h))
        (filter (fun h => negb (non_numeric_or_missing (Total_Total h))) csv).
Proof.
  unfold cleaned, dropna, strip_SA2_CODE_2021.
  induction csv as [|h t IH]; simpl; [reflexivity|].
  destruct (non_numeric_or_missing (Total_Total h)) eqn:E; simpl.
  - assert (F64.isna (coerce (Total_Total h)) = true) as ->.
    { destruct (F64.isna (coerce (Total_Total h))) eqn:E'; [reflexivity|].
      apply coerce_not_na in E'. congruence. }
    simpl. exact IH.
  - apply coerce_not_na in E. rewrite E; simpl. now rewrite IH.
Qed.

(** X7.  When the normalised keys are pairwise different in the boundary
    table and in the census rows that have a numeric count, no
    identifier occurs twice in any frame of the run. *)
Theorem identifiers_stay_unique
    (shapefile : GeoDataFrame (boundary G cell)) (csv : list (census cell cell))
    (f : frames G) (d : Regions G) :
  NoDup (map (fun b => normalised_key (SA2_CODE21 b)) (rows shapefile)) ->
  NoDup (map (fun h => normalised_key (SA2_CODE_2021 h))
             (filter (fun h => negb (non_numeric_or_missing (Total_Total h))) csv)) ->
  aggregate_data shapefile csv = Ok f ->
  In d (all_frames f) ->
  NoDup (map (@code G) (rows d)).
Proof.
  intros Hshp Hcsv Hrun Hd. apply aggregate_data_inv in Hrun.
  destruct Hrun as (src & _ & ->).
  assert (J : NoDup (map (@code G) (rows (joined shapefile csv)))).
  { unfold joined, assign_housing_density, gdf_merge; simpl.
    rewrite map_map; simpl.
    apply merge_with_unique_census_keys.
    - now rewrite cleaned_keys.
    - unfold strip_SA2_CODE21; simpl. rewrite map_map; simpl. exact Hshp. }
  unfold all_frames, frames_of, developed, drop_missing_geometry in Hd; simpl in Hd.
  repeat (destruct Hd as [<- | Hd];
          [auto 8 using unique_codes_select, unique_codes_reproject,
             unique_codes_buffered, unique_codes_hot_zones_m|]);
    try contradiction.
Qed.

(** X9.  When no row of the joined table has a defined density (in
    particular when the table is empty), the threshold is NaN, no row is
    high-density, every row is in the remainder, and a run yields no
    buffer and no growth-ready row. *)
Theorem nothing_is_classified_without_densities (gdf : Regions G) :
  (forall r, In r (rows gdf) -> F64.isna (housing_density r) = true) ->
  F64.isna (high_density_threshold gdf) = true
  /\ rows (developed gdf) = []
  /\ rows (other gdf) = rows gdf
  /\ forall f, classify gdf = Ok f ->
               rows (f_developed_m f) = []
               /\ rows (f_buffered f) = []
               /\ rows (f_hot_zones_m f) = []
               /\ rows (f_hot_zones_f f) = [].
Proof.
  intros Hna.
  assert (Hge : forall t r, In r (rows gdf) -> F64.ge (housing_density r) t = false).
  { intros t r Hr. rewrite (isna_nan _ (Hna r Hr)). apply ge_nan_l. }
  assert (Hdev : rows (developed gdf) = []).
  { unfold developed, select; simpl. apply filter_none. intros r Hr. now apply Hge. }
  split; [|split; [exact Hdev|split]].
  - unfold high_density_threshold, Quantile.quantile.
    rewrite filter_none; [reflexivity|].
    intros x Hx. apply in_map_iff in Hx. destruct Hx as (r & <- & Hr).
    now rewrite (Hna r Hr).
  - unfold other, select; simpl. apply filter_all. intros r Hr.
    now rewrite Hge.
  - intros f Hrun. apply classify_inv in Hrun. destruct Hrun as (src & _ & ->).
    unfold frames_of.
    cbn [f_developed_m f_buffered f_hot_zones_m f_hot_zones_f].
    set (hot := hot_zones_m _ _ _).
    assert (Hhot : rows hot = []).
    { subst hot. unfold hot_zones_m, hot_zones_in_band, select; simpl.
      apply filter_none. intros r Hr.
      apply filter_In in Hr. destruct Hr as [Hr _].
      apply filter_In in Hr. destruct Hr as [Hr _].
      apply in_map_iff in Hr. destruct Hr as (r0 & <- & Hr0).
      change (housing_density (with_geometry _ r0)) with (housing_density r0).
      now rewrite Hge. }
    split; [|split; [|split; [exact Hhot|]]].
    + unfold reproject; cbn [rows]. now rewrite Hdev.
    + unfold buffered, reproject; cbn [rows]. now rewrite Hdev.
    + unfold drop_missing_geometry, select, reproject; cbn [rows].
      now rewrite Hhot.
Qed.

Lemma hot_zone_row_origin (src : Z) (gdf hz : Regions G) (r : region G) :
  In hz [ f_hot_zones_m (frames_of src gdf); f_hot_zones_f (frames_of src gdf) ] ->
  In r (rows hz) ->
  F64.ge (housing_density r) (F64.of_Z min_density) = true
  /\ exists r0, In r0 (rows gdf) /\ attrs r = attrs r0
                /\ F64.ge (housing_density r0) (high_density_threshold gdf) = false.
Proof.
  intros Hhz Hr.
  destruct (hot_zone_frames_in_band src gdf hz r Hhz Hr) as (Hlo & _ & Hnot).
  split; [exact Hlo|].
  assert (Hall : In hz (all_frames (frames_of src gdf))).
  { unfold all_frames. simpl in Hhz |- *. tauto. }
  destruct (frames_derived Hall r Hr) as (r0 & Hr0 & E).
  pose proof (attrs_eq E) as (Ecode & _ & _ & Edens).
  exists r0. split; [exact Hr0|]. split; [exact E|].
  destruct (F64.ge (housing_density r0) (high_density_threshold gdf)) eqn:Ege;
    [exfalso|reflexivity].
  apply Hnot. rewrite Ecode. apply (in_map (@code G)).
  apply in_developed. auto.
Qed.

(** X10.  The density of a growth-ready row fails the comparison with
    the threshold: the rows kept by lines 51 to 60 are rows that line 37
    left out, in the projected frame and in the exported one. *)
Theorem growth_ready_rows_are_below_threshold
    (gdf : Regions G) (f : frames G) (hz : Regions G) (r : region G) :
  classify gdf = Ok f ->
  In hz [ f_hot_zones_m f; f_hot_zones_f f ] ->
  In r (rows hz) ->
  F64.ge (housing_density r) (f_high_density_threshold f) = false
  /\ exists r0, In r0 (rows (other gdf)) /\ attrs r = attrs r0.
Proof.
  intros Hrun Hhz Hr. apply classify_inv in Hrun. destruct Hrun as (src & _ & ->).
  destruct (hot_zone_row_origin src gdf hz r Hhz Hr) as (_ & r0 & Hr0 & E & Hlow).
  pose proof (attrs_eq E) as (_ & _ & _ & Edens).
  cbn [f_high_density_threshold frames_of].
  split; [now rewrite Edens|].
  exists r0. split; [|exact E]. apply in_other. auto.
Qed.

(** X11.  When the threshold is not above [min_density], a run has no
    growth-ready row: a density inside the band would reach the
    threshold. *)
Theorem no_growth_ready_row_under_low_threshold (gdf : Regions G) (f : frames G) :
  classify gdf = Ok f ->
  F64.le (f_high_density_threshold f) (F64.of_Z min_density) = true ->
  rows (f_hot_zones_m f) = [] /\ rows (f_hot_zones_f f) = [].
Proof.
  intros Hrun Hle. apply classify_inv in Hrun. destruct Hrun as (src & _ & ->).
  cbn [f_high_density_threshold frames_of] in Hle.
  assert (Hnone : forall hz,
             In hz [ f_hot_zones_m (frames_of src gdf);
                     f_hot_zones_f (frames_of src gdf) ] ->
             rows hz = []).
  { intros hz Hhz. destruct (rows hz) as [|r t] eqn:E; [reflexivity|exfalso].
    assert (Hr : In r (rows hz)) by (rewrite E; simpl; auto).
    destruct (hot_zone_row_origin src gdf hz r Hhz Hr)
      as (Hband & r0 & _ & Eattrs & Hlow).
    pose proof (attrs_eq Eattrs) as (_ & _ & _ & Edens).
    rewrite Edens in Hband.
    pose proof (le_trans _ _ _ Hle Hband) as T.
    unfold F64.ge in Hlow. unfold F64.le in T. congruence. }
  split; apply Hnone; simpl; auto.
Qed.

(** X12.  Every growth-ready row has a geometry, so line 87 drops none
    of them: the exported growth-ready frame is the reprojection of the
    projected one, row for row. *)
Theorem growth_ready_rows_have_geometry (gdf : Regions G) (f : frames G) :
  classify gdf = Ok f ->
  (forall r, In r (rows (f_hot_zones_m f)) -> geom r <> None)
  /\ rows (f_hot_zones_f f) = rows (reproject 3857 4326 (f_hot_zones_m f))
  /\ List.length (rows (f_hot_zones_f f)) = List.length (rows (f_hot_zones_m f)).
Proof.
  intros Hrun. apply classify_inv in Hrun. destruct Hrun as (src & _ & ->).
  unfold frames_of. cbn [f_hot_zones_m f_hot_zones_f].
  set (hot := hot_zones_m _ _ _).
  assert (Hgeom : forall r, In r (rows hot) -> geom r <> None).
  { intros r Hr. apply in_hot_zones_m in Hr. destruct Hr as (_ & Hint & _).
    unfold geom_intersects in Hint. destruct (geom r); [discriminate|]. discriminate. }
  assert (Hsame : rows (drop_missing_geometry (reproject 3857 4326 hot))
                  = rows (reproject 3857 4326 hot)).
  { unfold drop_missing_geometry, select; simpl. apply filter_all.
    intros r Hr. apply in_map_iff in Hr. destruct Hr as (r0 & <- & Hr0).
    specialize (Hgeom r0 Hr0). unfold geom in *; simpl.
    destruct (geometry (shp r0)); [reflexivity|contradiction]. }
  split; [exact Hgeom|]. split; [exact Hsame|].
  rewrite Hsame. unfold reproject; simpl. apply length_map.
Qed.

Lemma reproject_incl (src dst : Z) (d d' : Regions G) :
  (forall r, In r (rows d) -> In r (rows d')) ->
  forall r, In r (rows (reproject src dst d)) -> In r (rows (reproject src dst d')).
Proof.
  intros Hsub r Hr. apply in_reproject in Hr. destruct Hr as (r0 & Hr0 & ->).
  apply in_reproject. exists r0. auto.
Qed.

Lemma drop_missing_geometry_incl (d d' : Regions G) :
  (forall r, In r (rows d) -> In r (rows d')) ->
  forall r, In r (rows (drop_missing_geometry d)) ->
            In r (rows (drop_missing_geometry d')).
Proof.
  unfold drop_missing_geometry. intros Hsub r Hr.
  apply in_select in Hr. apply in_select. destruct Hr as [Hr Hg]. auto.
Qed.

(** X13.  Every high-density row and every growth-ready row is also a
    row of the frame of all regions, in the projected and in the
    exported frames, and every exported row has a geometry: each
    coloured shape of the maps lies over a grey one. *)
Theorem coloured_rows_are_base_rows (gdf : Regions G) (f : frames G) :
  classify gdf = Ok f ->
  (forall r, In r (rows (f_developed f)) -> In r (rows (f_gdf f)))
  /\ (forall r, In r (rows (f_developed_m f)) -> In r (rows (f_gdf_m f)))
  /\ (forall r, In r (rows (f_hot_zones_m f)) -> In r (rows (f_gdf_m f)))
  /\ (forall r, In r (rows (f_developed_f f)) -> In r (rows (f_gdf_f f)))
  /\ (forall r, In r (rows (f_hot_zones_f f)) -> In r (rows (f_gdf_f f)))
  /\ (forall d r, In d [ f_gdf_f f; f_developed_f f; f_hot_zones_f f ] ->
                  In r (rows d) -> geom r <> None).
Proof.
  intros Hrun. apply classify_inv in Hrun. destruct Hrun as (src & _ & ->).
  unfold frames_of.
  cbn [f_gdf f_developed f_gdf_m f_developed_m f_hot_zones_m
       f_gdf_f f_developed_f f_hot_zones_f].
  assert (Hdev : forall r, In r (rows (developed gdf)) -> In r (rows gdf))
    by (intros r Hr; apply in_developed in Hr; tauto).
  assert (Hhot : forall r,
             In r (rows (hot_zones_m (reproject src 3857 gdf)
                           (buffered (reproject src 3857 (developed gdf)))
                           (developed gdf))) ->
             In r (rows (reproject src 3857 gdf)))
    by (intros r Hr; apply in_hot_zones_m in Hr; tauto).
  split; [exact Hdev|].
  split; [now apply reproject_incl|].
  split; [exact Hhot|].
  split; [now apply drop_missing_geometry_incl, reproject_incl, reproject_incl|].
  split; [now apply drop_missing_geometry_incl, reproject_incl|].
  intros d r Hd Hr. simpl in Hd.
  assert (Hg : exists d0, d = drop_missing_geometry d0).
  { destruct Hd as [<-|[<-|[<-|[]]]]; eauto. }
  destruct Hg as (d0 & ->). unfold drop_missing_geometry in Hr.
  apply in_select in Hr. destruct Hr as [_ Hg].
  destruct (geom r); [discriminate|discriminate].
Qed.

End Frames.

Lemma example_boundary_keys_unique :
  NoDup (map (fun b => normalised_key (SA2_CODE21 b)) (rows Example.shapefile)).
Proof.
  vm_compute.
  repeat (constructor;
          [simpl; intros Hin;
           repeat (destruct Hin as [Hin|Hin]; [discriminate|]); exact Hin|]).
  constructor.
Qed.

Lemma example_numeric_census_keys_unique :
  NoDup (map (fun h => normalised_key (SA2_CODE_2021 h))
             (filter (fun h => negb (non_numeric_or_missing (Total_Total h)))
                     Example.csv)).
Proof.
  vm_compute.
  repeat (constructor;
          [simpl; intros Hin;
           repeat (destruct Hin as [Hin|Hin]; [discriminate|]); exact Hin|]).
  constructor.
Qed.

Lemma example_classify : classify (f_gdf Example.out) = Ok Example.out.
Proof. vm_compute. reflexivity. Qed.

Lemma no_area_classify : classify (f_gdf Cases.no_area) = Ok Cases.no_area.
Proof. vm_compute. reflexivity. Qed.

Lemma sparse_classify : classify (f_gdf Cases.sparse) = Ok Cases.sparse.
Proof. vm_compute. reflexivity. Qed.

Lemma identifiers_stay_unique_holds :
  aggregate_data Example.shapefile Example.csv = Ok Example.out
  /\ In (f_hot_zones_f Example.out) (all_frames Example.out)
  /\ NoDup (map (@code Example.intervals) (rows (f_gdf Example.out)))
  /\ NoDup (map (@code Example.intervals) (rows (f_hot_zones_f Example.out))).
Proof.
  assert (Hg : In (f_gdf Example.out) (all_frames Example.out))
    by (vm_compute; tauto).
  assert (Hh : In (f_hot_zones_f Example.out) (all_frames Example.out))
    by (vm_compute; tauto).
  split; [exact example_run|]. split; [exact Hh|]. split.
  - exact (identifiers_stay_unique _ _ _ _ example_boundary_keys_unique
             example_numeric_census_keys_unique example_run Hg).
  - exact (identifiers_stay_unique _ _ _ _ example_boundary_keys_unique
             example_numeric_census_keys_unique example_run Hh).
Defined.

Lemma nothing_is_classified_without_densities_holds :
  (forall r, In r (rows (f_gdf Cases.no_area)) ->
             F64.isna (housing_density r) = true)
  /\ List.length (rows (f_gdf Cases.no_area)) = 1%nat
  /\ F64.isna (high_density_threshold (f_gdf Cases.no_area)) = true
  /\ rows (developed (f_gdf Cases.no_area)) = []
  /\ rows (f_hot_zones_m Cases.no_area) = [].
Proof.
  assert (Hna : forall r, In r (rows (f_gdf Cases.no_area)) ->
                          F64.isna (housing_density r) = true).
  { intros r Hr. simpl in Hr. destruct Hr as [<-|[]]. reflexivity. }
  pose proof (nothing_is_classified_without_densities (f_gdf Cases.no_area) Hna)
    as (Ht & Hd & _ & Hf).
  split; [exact Hna|]. split; [reflexivity|]. split; [exact Ht|].
  split; [exact Hd|].
  exact (proj1 (proj2 (proj2 (Hf _ no_area_classify)))).
Defined.

Lemma growth_ready_rows_are_below_threshold_holds :
  classify (f_gdf Example.out) = Ok Example.out
  /\ In (Example.row 0 (f_hot_zones_m Example.out)) (rows (f_hot_zones_m Example.out))
  /\ F64.ge (housing_density (Example.row 0 (f_hot_zones_m Example.out)))
            (f_high_density_threshold Example.out) = false.
Proof.
  assert (Hr : In (Example.row 0 (f_hot_zones_m Example.out))
                  (rows (f_hot_zones_m Example.out)))
    by (vm_compute; tauto).
  split; [exact example_classify|]. split; [exact Hr|].
  exact (proj1 (growth_ready_rows_are_below_threshold
                  (f_gdf Example.out) Example.out (f_hot_zones_m Example.out)
                  (Example.row 0 (f_hot_zones_m Example.out))
                  example_classify (or_introl eq_refl) Hr)).
Defined.

Lemma no_growth_ready_row_under_low_threshold_holds :
  classify (f_gdf Cases.sparse) = Ok Cases.sparse
  /\ F64.le (f_high_density_threshold Cases.sparse) (F64.of_Z min_density) = true
  /\ List.length (rows (f_gdf Cases.sparse)) = 3%nat
  /\ rows (f_hot_zones_m Cases.sparse) = []
  /\ rows (f_hot_zones_f Cases.sparse) = [].
Proof.
  split; [exact sparse_classify|]. split; [reflexivity|]. split; [reflexivity|].
  exact (no_growth_ready_row_under_low_threshold
           (f_gdf Cases.sparse) Cases.sparse sparse_classify eq_refl).
Defined.

Lemma growth_ready_rows_have_geometry_holds :
  classify (f_gdf Example.out) = Ok Example.out
  /\ List.length (rows (f_hot_zones_f Example.out))
     = List.length (rows (f_hot_zones_m Example.out))
  /\ List.length (rows (f_hot_zones_m Example.out)) = 1%nat.
Proof.
  split; [exact example_classify|]. split; [|reflexivity].
  exact (proj2 (proj2 (growth_ready_rows_have_geometry
                         (f_gdf Example.out) Example.out example_classify))).
Defined.

Lemma coloured_rows_are_base_rows_holds :
  classify (f_gdf Example.out) = Ok Example.out
  /\ In (Example.row 0 (f_hot_zones_f Example.out)) (rows (f_hot_zones_f Example.out))
  /\ In (Example.row 0 (f_hot_zones_f Example.out)) (rows (f_gdf_f Example.out)).
Proof.
  assert (Hr : In (Example.row 0 (f_hot_zones_f Example.out))
                  (rows (f_hot_zones_f Example.out)))
    by (vm_compute; tauto).
  split; [exact example_classify|]. split; [exact Hr|].
  destruct (coloured_rows_are_base_rows (f_gdf Example.out) Example.out
              example_classify) as (_ & _ & _ & _ & Hsub & _).
  exact (Hsub _ Hr).
Defined.
